(** * Adaptive dimensional convergence

  A shallow embedding of [InfiniteDimensionalSystem] from
  [archive/original_src/emergence/infinite_dimensional/infinite_dimensional_framework.py]:
  the constructor, [truncate_space] and the dimension-doubling driver
  [adaptive_convergence], together with the properties of the driver.

  The driver is written once, over an interface [PyRuntime] that names the
  operations of the Python interpreter and of NumPy which the method
  applies to the values returned by the user's computation ([-], [abs],
  [np.linalg.norm], [<], [isinstance], [is None]).  Control-flow
  properties are proved for every runtime; properties that need concrete
  numbers are proved on the instance [Ref.runtime], where Python floats are
  IEEE 754 binary64 numbers ([SpecFloat]). *)

From Stdlib Require Import ZArith List String Bool Lia.
From Stdlib Require Import SpecFloat DecimalString Sorted.
Import ListNotations.

Local Open Scope Z_scope.

(** ** Python floats: IEEE 754 binary64 *)

Definition float : Type := spec_float.

Module F.
Definition prec : Z := 53.
Definition emax : Z := 1024.

Definition add : float -> float -> float := SFadd prec emax.
Definition sub : float -> float -> float := SFsub prec emax.
Definition mul : float -> float -> float := SFmul prec emax.
Definition div : float -> float -> float := SFdiv prec emax.
Definition sqrt : float -> float := SFsqrt prec emax.
Definition abs : float -> float := SFabs.
Definition ltb : float -> float -> bool := SFltb.

Definition inf : float := S754_infinity false.
Definition zero : float := S754_zero false.

Definition is_finite (x : float) : bool :=
  match x with
  | S754_zero _ | S754_finite _ _ _ => true
  | S754_infinity _ | S754_nan => false
  end.

(** The float nearest to the rational [m * 2^e] (ties to even). *)
Definition round (m e : Z) : float := binary_normalize prec emax m e false.

(** [float(z)] for a Python int; [None] stands for the OverflowError that
    CPython raises when the nearest float would be infinite. *)
Definition of_int (z : Z) : option float :=
  let x := round z 0 in
  if is_finite x then Some x else None.
End F.

(** ** Exceptions and the effects of a call *)

Inductive exn : Type :=
| TypeError
| ValueError
| OverflowError
| ZeroDivisionError
| IndexError
| AttributeError
| UnboundLocalError
| Raised (name : string).

(** What a call does besides changing the instance: it calls the user's
  function at a size, and it issues warnings through [warnings.warn]. *)
Inductive effect : Type :=
| Call (size : Z)
| Warn (message : string).

(** [str(z)] for a Python int, as an f-string prints it. *)
Definition str_of_int (z : Z) : string := NilZero.string_of_int (Z.to_int z).

(** ** The interface of the interpreter *)

Class PyRuntime : Type := {
  value : Type;
  (** the object [None] and the test [v is None] *)
  None_ : value;
  is_None : value -> bool;
  (** a Python float as an object; [float('inf')] is [of_float F.inf] *)
  of_float : float -> value;
  (** [isinstance(v, (int, float, complex))] *)
  isinstance_scalar : value -> bool;
  (** [isinstance(v, np.ndarray)] *)
  isinstance_ndarray : value -> bool;
  (** [a - b] *)
  py_sub : value -> value -> exn + value;
  (** [abs(a)] *)
  py_abs : value -> exn + value;
  (** [np.linalg.norm(a)] *)
  np_linalg_norm : value -> exn + value;
  (** the truth value of [a < t] in [if a < t:], for a float [t] *)
  py_lt_float : value -> float -> exn + bool;
  (** [len(a.shape)], [a[:c]] and [a[:c, :c]] *)
  shape_len : value -> exn + nat;
  slice_1d : value -> Z -> exn + value;
  slice_2d : value -> Z -> exn + value;
  (** [None is None] *)
  is_None_None : is_None None_ = true;
  (** two floats are compared as IEEE 754 numbers *)
  float_lt_spec : forall x t, py_lt_float (of_float x) t = inr (F.ltb x t)
}.

(** ** The driver *)

Section Driver.
Context {R : PyRuntime}.

(** An entry of [self.convergence_history]: a dict with the keys
    ['dimension'], ['error'] and ['result']. *)
Record ConvergenceRecord : Type := {
  dimension : Z;
  error : value;
  result : value
}.

Record InfiniteDimensionalSystem : Type := {
  dimension_cutoff : Z;
  convergence_history : list ConvergenceRecord
}.

Definition __init__ (dimension_cutoff : Z) : InfiniteDimensionalSystem :=
  {| dimension_cutoff := dimension_cutoff; convergence_history := [] |}.

(** A method call starts from the instance and yields the instance
    afterwards, the effects in the order they happened, and either the
    exception that left the method or the value it returned. *)
Record run (A : Type) : Type := Run {
  final : InfiniteDimensionalSystem;
  effects : list effect;
  outcome : exn + A
}.
Arguments Run {A} _ _ _.
Arguments final {A} _.
Arguments effects {A} _.
Arguments outcome {A} _.

Definition M (A : Type) : Type := InfiniteDimensionalSystem -> run A.

Definition ret {A} (a : A) : M A := fun self => Run self [] (inr a).

Definition raise {A} (e : exn) : M A := fun self => Run self [] (inl e).

Definition bind {A B} (m : M A) (k : A -> M B) : M B :=
  fun self =>
    let r := m self in
    match outcome r with
    | inl e => Run (final r) (effects r) (inl e)
    | inr a =>
        let r' := k a (final r) in
        Run (final r') (effects r ++ effects r') (outcome r')
    end.

(** An operation of the runtime: no effect, may raise. *)
Definition lift {A} (x : exn + A) : M A :=
  fun self => Run self [] x.

(** [computation_func(dimension)]: the call is recorded, and an exception of
    the user's function is the exception of this step. *)
Definition call (computation_func : Z -> exn + value) (dimension : Z) : M value :=
  fun self => Run self [Call dimension] (computation_func dimension).

Definition warn (message : string) : M unit :=
  fun self => Run self [Warn message] (inr tt).

(** [self.convergence_history.append(r)] *)
Definition append_history (r : ConvergenceRecord) : M unit :=
  fun self =>
    Run {| dimension_cutoff := dimension_cutoff self;
           convergence_history := convergence_history self ++ [r] |}
        [] (inr tt).

Notation "x <- m ;; k" := (bind m (fun x => k))
  (at level 61, m at next level, right associativity).
Notation "m ;;; k" := (bind m (fun _ => k))
  (at level 61, right associativity).

(** *** [truncate_space] *)

Definition truncate_space (full_space : value) (cutoff : option Z) : M value :=
  fun self =>
    let cutoff :=
      match cutoff with
      | None => dimension_cutoff self
      | Some c => c
      end in
    (n <- lift (shape_len full_space) ;;
     if Nat.eqb n 1 then lift (slice_1d full_space cutoff)
     else if Nat.eqb n 2 then lift (slice_2d full_space cutoff)
     else raise ValueError) self.

(** *** [adaptive_convergence] *)

(** Lines 75-80: the error between two successive results, chosen by the
    type of the current one. *)
Definition distance (current_result previous_result : value) : exn + value :=
  if isinstance_scalar current_result then
    match py_sub current_result previous_result with
    | inl e => inl e
    | inr d => py_abs d
    end
  else if isinstance_ndarray current_result then
    match py_sub current_result previous_result with
    | inl e => inl e
    | inr d => np_linalg_norm d
    end
  else inr (of_float F.inf).

(** The local variables of the method; [current_result] is unbound until
    the first pass through the loop body. *)
Record locals : Type := {
  l_dimension : Z;
  l_previous_result : value;
  l_current_result : option value
}.

(** How the [for] loop ends: by running out of iterations, or by the
    [return] inside its body. *)
Inductive flow : Type :=
| Fallthrough (l : locals)
| Returned (r : value * Z).

Definition next (l : locals) (current_result : value) : locals :=
  {| l_dimension := l_dimension l * 2;
     l_previous_result := current_result;
     l_current_result := Some current_result |}.

(** Lines 71-92, for the remaining [iterations] of [range(max_iterations)]. *)
Fixpoint for_range (computation_func : Z -> exn + value) (tolerance : float)
           (iterations : nat) (l : locals) : M flow :=
  match iterations with
  | O => ret (Fallthrough l)
  | S iterations' =>
      current_result <- call computation_func (l_dimension l) ;;
      if is_None (l_previous_result l) then
        for_range computation_func tolerance iterations' (next l current_result)
      else
        error <- lift (distance current_result (l_previous_result l)) ;;
        append_history {| dimension := l_dimension l;
                          error := error;
                          result := current_result |} ;;;
        below <- lift (py_lt_float error tolerance) ;;
        if (below : bool) then ret (Returned (current_result, l_dimension l))
        else for_range computation_func tolerance iterations' (next l current_result)
  end.

Definition failure_message (max_iterations : Z) : string :=
  ("Failed to converge within " ++ str_of_int max_iterations ++ " iterations")%string.

Definition initial_locals : locals :=
  {| l_dimension := 10; l_previous_result := None_; l_current_result := None |}.

Definition adaptive_convergence (computation_func : Z -> exn + value)
           (tolerance : float) (max_iterations : Z) : M (value * Z) :=
  f <- for_range computation_func tolerance (Z.to_nat max_iterations) initial_locals ;;
  match f with
  | Returned r => ret r
  | Fallthrough l =>
      warn (failure_message max_iterations) ;;;
      match l_current_result l with
      | Some current_result => ret (current_result, l_dimension l)
      | None => raise UnboundLocalError
      end
  end.

End Driver.

Arguments Run {R A} _ _ _.
Arguments final {R A} _.
Arguments effects {R A} _.
Arguments outcome {R A} _.

(** ** A reference runtime

    The objects a computation is taken to return here: [None], ints, floats,
    complex numbers, strings, and one-dimensional NumPy arrays of dtype
    float64 or complex128.  The operations follow CPython and NumPy:
    ints are exact, floats are binary64, an int meets a float or an array as
    the nearest float, and arrays combine element by element after
    broadcasting.  Warnings that NumPy itself may print are not effects of
    the driver and are left out. *)

Module Ref.

Definition complex : Type := (float * float)%type.

Inductive ndarray : Type :=
| Float64 (data : list float)
| Complex128 (data : list complex).

Inductive object : Type :=
| VNone
| VInt (z : Z)
| VFloat (x : float)
| VComplex (c : complex)
| VStr (s : string)
| VArray (a : ndarray).

Definition to_complex (x : float) : complex := (x, F.zero).

Definition complex_sub (a b : complex) : complex :=
  (F.sub (fst a) (fst b), F.sub (snd a) (snd b)).

(** [m * 2^e] for a finite float, as an integer mantissa and an exponent. *)
Definition mantissa (x : float) : Z * Z :=
  match x with
  | S754_finite _ m e => (Zpos m, e)
  | _ => (0, 0)
  end.

(** [hypot(x, y)], taken correctly rounded: the square root is of the exact
    sum of the squares. *)
Definition hypot (x y : float) : float :=
  match x, y with
  | S754_infinity _, _ | _, S754_infinity _ => F.inf
  | S754_nan, _ | _, S754_nan => S754_nan
  | _, _ =>
      let '(mx, ex) := mantissa x in
      let '(my, ey) := mantissa y in
      let e := Z.min ex ey in
      let ax := mx * 2 ^ (ex - e) in
      let ay := my * 2 ^ (ey - e) in
      match ax * ax + ay * ay with
      | Zpos s => F.sqrt (S754_finite false s (2 * e))
      | _ => F.zero
      end
  end.

(** The real or complex number an object stands for in arithmetic. *)
Inductive number : Type :=
| NInt (z : Z)
| NFloat (x : float)
| NComplex (c : complex).

Definition as_number (v : object) : option number :=
  match v with
  | VInt z => Some (NInt z)
  | VFloat x => Some (NFloat x)
  | VComplex c => Some (NComplex c)
  | _ => None
  end.

Definition number_sub (a b : number) : exn + object :=
  match a, b with
  | NInt x, NInt y => inr (VInt (x - y))
  | NInt x, NFloat y =>
      match F.of_int x with
      | Some x => inr (VFloat (F.sub x y))
      | None => inl OverflowError
      end
  | NFloat x, NInt y =>
      match F.of_int y with
      | Some y => inr (VFloat (F.sub x y))
      | None => inl OverflowError
      end
  | NFloat x, NFloat y => inr (VFloat (F.sub x y))
  | NInt x, NComplex y =>
      match F.of_int x with
      | Some x => inr (VComplex (complex_sub (to_complex x) y))
      | None => inl OverflowError
      end
  | NComplex x, NInt y =>
      match F.of_int y with
      | Some y => inr (VComplex (complex_sub x (to_complex y)))
      | None => inl OverflowError
      end
  | NFloat x, NComplex y => inr (VComplex (complex_sub (to_complex x) y))
  | NComplex x, NFloat y => inr (VComplex (complex_sub x (to_complex y)))
  | NComplex x, NComplex y => inr (VComplex (complex_sub x y))
  end.

(** A number as a zero-dimensional array operand. *)
Definition number_as_array (a : number) : exn + ndarray :=
  match a with
  | NInt z =>
      match F.of_int z with
      | Some x => inr (Float64 [x])
      | None => inl OverflowError
      end
  | NFloat x => inr (Float64 [x])
  | NComplex c => inr (Complex128 [c])
  end.

(** Broadcasting of two one-dimensional shapes: equal lengths, or a length
    of one on either side. *)
Fixpoint zip_with {A B C} (f : A -> B -> C) (xs : list A) (ys : list B) : list C :=
  match xs, ys with
  | x :: xs', y :: ys' => f x y :: zip_with f xs' ys'
  | _, _ => []
  end.

Definition broadcast {A B C} (f : A -> B -> C) (xs : list A) (ys : list B)
  : option (list C) :=
  match xs, ys with
  | [x], _ => Some (map (f x) ys)
  | _, [y] => Some (map (fun x => f x y) xs)
  | _, _ =>
      if Nat.eqb (List.length xs) (List.length ys) then Some (zip_with f xs ys) else None
  end.

Definition array_sub (a b : ndarray) : exn + ndarray :=
  match a, b with
  | Float64 xs, Float64 ys =>
      match broadcast F.sub xs ys with
      | Some zs => inr (Float64 zs)
      | None => inl ValueError
      end
  | Float64 xs, Complex128 ys =>
      match broadcast complex_sub (map to_complex xs) ys with
      | Some zs => inr (Complex128 zs)
      | None => inl ValueError
      end
  | Complex128 xs, Float64 ys =>
      match broadcast complex_sub xs (map to_complex ys) with
      | Some zs => inr (Complex128 zs)
      | None => inl ValueError
      end
  | Complex128 xs, Complex128 ys =>
      match broadcast complex_sub xs ys with
      | Some zs => inr (Complex128 zs)
      | None => inl ValueError
      end
  end.

Definition sub (a b : object) : exn + object :=
  match a, b with
  | VArray x, VArray y =>
      match array_sub x y with
      | inl e => inl e
      | inr z => inr (VArray z)
      end
  | VArray x, _ =>
      match as_number b with
      | None => inl TypeError
      | Some n =>
          match number_as_array n with
          | inl e => inl e
          | inr y =>
              match array_sub x y with
              | inl e => inl e
              | inr z => inr (VArray z)
              end
          end
      end
  | _, VArray y =>
      match as_number a with
      | None => inl TypeError
      | Some n =>
          match number_as_array n with
          | inl e => inl e
          | inr x =>
              match array_sub x y with
              | inl e => inl e
              | inr z => inr (VArray z)
              end
          end
      end
  | _, _ =>
      match as_number a, as_number b with
      | Some x, Some y => number_sub x y
      | _, _ => inl TypeError
      end
  end.

Definition abs (a : object) : exn + object :=
  match a with
  | VInt z => inr (VInt (Z.abs z))
  | VFloat x => inr (VFloat (F.abs x))
  | VComplex (re, im) =>
      let r := hypot re im in
      if F.is_finite re && F.is_finite im && negb (F.is_finite r)
      then inl OverflowError
      else inr (VFloat r)
  | VArray (Float64 xs) => inr (VArray (Float64 (map F.abs xs)))
  | VArray (Complex128 xs) =>
      inr (VArray (Float64 (map (fun c => hypot (fst c) (snd c)) xs)))
  | VNone | VStr _ => inl TypeError
  end.

(** [x.dot(x)], summed from the left. *)
Definition dot (xs : list float) : float :=
  fold_left (fun acc x => F.add acc (F.mul x x)) xs F.zero.

(** [np.linalg.norm] with its default arguments: the square root of the sum
    of the squares of the entries (of their real and imaginary parts for a
    complex array). *)
Definition norm (a : object) : exn + object :=
  match a with
  | VArray (Float64 xs) => inr (VFloat (F.sqrt (dot xs)))
  | VArray (Complex128 xs) =>
      inr (VFloat (F.sqrt (F.add (dot (map fst xs)) (dot (map snd xs)))))
  | VInt z =>
      match F.of_int z with
      | Some x => inr (VFloat (F.sqrt (dot [x])))
      | None => inl OverflowError
      end
  | VFloat x => inr (VFloat (F.sqrt (dot [x])))
  | VComplex (re, im) => inr (VFloat (F.sqrt (F.add (dot [re]) (dot [im]))))
  | VStr _ => inl ValueError
  | VNone => inl TypeError
  end.

(** [z < t] for an int and a float: Python compares the exact values. *)
Definition int_lt_float (z : Z) (t : float) : bool :=
  match t with
  | S754_nan => false
  | S754_infinity s => negb s
  | S754_zero _ => z <? 0
  | S754_finite s m e =>
      let m := if s then Zneg m else Zpos m in
      if 0 <=? e then z <? m * 2 ^ e else z * 2 ^ (- e) <? m
  end.

(** The truth value of an array of booleans: defined for one element, false
    for none, an error for more. *)
Definition truth (bs : list bool) : exn + bool :=
  match bs with
  | [] => inr false
  | [b] => inr b
  | _ => inl ValueError
  end.

Definition complex_lt_float (c : complex) (t : float) : bool :=
  F.ltb (fst c) t || (SFeqb (fst c) t && F.ltb (snd c) F.zero).

Definition lt_float (a : object) (t : float) : exn + bool :=
  match a with
  | VInt z => inr (int_lt_float z t)
  | VFloat x => inr (F.ltb x t)
  | VArray (Float64 xs) => truth (map (fun x => F.ltb x t) xs)
  | VArray (Complex128 xs) => truth (map (fun c => complex_lt_float c t) xs)
  | VNone | VComplex _ | VStr _ => inl TypeError
  end.

Definition ndim (a : object) : exn + nat :=
  match a with
  | VArray _ => inr 1%nat
  | _ => inl AttributeError
  end.

(** The number of leading elements that [a[:c]] keeps of [n]. *)
Definition slice_stop (n : nat) (c : Z) : nat :=
  if c <? 0 then Z.to_nat (Z.of_nat n + c) else Nat.min n (Z.to_nat c).

Definition slice1 (a : object) (c : Z) : exn + object :=
  match a with
  | VArray (Float64 xs) => inr (VArray (Float64 (firstn (slice_stop (List.length xs) c) xs)))
  | VArray (Complex128 xs) => inr (VArray (Complex128 (firstn (slice_stop (List.length xs) c) xs)))
  | VStr s => inr (VStr (String.substring 0 (slice_stop (String.length s) c) s))
  | _ => inl TypeError
  end.

Definition slice2 (a : object) (c : Z) : exn + object :=
  match a with
  | VArray _ => inl IndexError
  | _ => inl TypeError
  end.

Definition is_none (a : object) : bool :=
  match a with
  | VNone => true
  | _ => false
  end.

Definition is_scalar (a : object) : bool :=
  match a with
  | VInt _ | VFloat _ | VComplex _ => true
  | _ => false
  end.

Definition is_ndarray (a : object) : bool :=
  match a with
  | VArray _ => true
  | _ => false
  end.

#[global] Instance runtime : PyRuntime := {|
  value := object;
  None_ := VNone;
  is_None := is_none;
  of_float := VFloat;
  isinstance_scalar := is_scalar;
  isinstance_ndarray := is_ndarray;
  py_sub := sub;
  py_abs := abs;
  np_linalg_norm := norm;
  py_lt_float := lt_float;
  shape_len := ndim;
  slice_1d := slice1;
  slice_2d := slice2;
  is_None_None := eq_refl;
  float_lt_spec := fun x t => eq_refl
|}.

(** [a / b] for two Python ints: the float nearest to the exact quotient. *)
Definition exact (z : Z) : float :=
  match z with
  | Z0 => F.zero
  | Zpos m => S754_finite false m 0
  | Zneg m => S754_finite true m 0
  end.

Definition int_truediv (a b : Z) : exn + object :=
  if b =? 0 then inl ZeroDivisionError
  else
    let q := F.div (exact a) (exact b) in
    if F.is_finite q then inr (VFloat q) else inl OverflowError.

(** [np.full(n, x)] for a float [x]: [n] copies of [x]. *)
Definition np_full (n : Z) (x : object) : exn + object :=
  if n <? 0 then inl ValueError
  else
    match x with
    | VFloat x => inr (VArray (Float64 (repeat x (Z.to_nat n))))
    | _ => inl TypeError
    end.

End Ref.

(** ** Vocabulary of the statements *)

(** The doubling sequence 10, 20, 40, 80, ...: the size of pass [i] of the
    loop, counted from 0. *)
Definition size (i : nat) : Z := 10 * 2 ^ Z.of_nat i.

Section Vocabulary.
Context {R : PyRuntime}.

(** The effect of [r], after the effect [e]. *)
Definition after {A} (e : effect) (r : run A) : run A :=
  Run (final r) (e :: effects r) (outcome r).

(** The instance with [r] appended to its history. *)
Definition logged (self : InfiniteDimensionalSystem) (rs : list ConvergenceRecord)
  : InfiniteDimensionalSystem :=
  {| dimension_cutoff := dimension_cutoff self;
     convergence_history := convergence_history self ++ rs |}.

(** When the results of the calls are [results 0], [results 1], ...: the
    value of [previous_result] and the local variables on entry to pass [i]. *)
Definition previous (results : nat -> value) (i : nat) : value :=
  match i with
  | O => None_
  | S j => results j
  end.

Definition locals_at (results : nat -> value) (i : nat) : locals :=
  {| l_dimension := size i;
     l_previous_result := previous results i;
     l_current_result :=
       match i with
       | O => None
       | S j => Some (results j)
       end |}.

(** Pass [i] goes on to the next pass: there is nothing to compare with, or
    the error is computed and is not below the tolerance. *)
Definition goes_on (results : nat -> value) (tolerance : float) (i : nat) : Prop :=
  is_None (previous results i) = true \/
  exists err,
    is_None (previous results i) = false /\
    distance (results i) (previous results i) = inr err /\
    py_lt_float err tolerance = inr false.

(** The record that pass [i] appends, if it appends one. *)
Definition entry (results : nat -> value) (i : nat) : list ConvergenceRecord :=
  if is_None (previous results i) then []
  else
    match distance (results i) (previous results i) with
    | inr err => [{| dimension := size i; error := err; result := results i |}]
    | inl _ => []
    end.

(** The tolerance check of the call number [S i] (calls are numbered from 1)
    succeeds: both calls return, the earlier result is not [None], and the
    error is below the tolerance. *)
Definition check_succeeds (computation_func : Z -> exn + value) (tolerance : float)
           (i : nat) : bool :=
  match i with
  | O => false
  | S j =>
      match computation_func (size j), computation_func (size i) with
      | inr previous_result, inr current_result =>
          negb (is_None previous_result) &&
          match distance current_result previous_result with
          | inr err =>
              match py_lt_float err tolerance with
              | inr below => below
              | inl _ => false
              end
          | inl _ => false
          end
      | _, _ => false
      end
  end.

(** The number of the first call, among the first [max_iterations], at
    which the tolerance check succeeds; [None] when there is none. *)
Definition convergence_iteration (computation_func : Z -> exn + value)
           (tolerance : float) (max_iterations : nat) : option nat :=
  option_map S (find (check_succeeds computation_func tolerance) (seq 0 max_iterations)).

(** [min(max_iterations, convergence_iteration)], the latter unbounded when
    the check never succeeds. *)
Definition passes_run (max_iterations : nat) (c : option nat) : nat :=
  match c with
  | Some c => Nat.min max_iterations c
  | None => max_iterations
  end.

(** The loop as a relation between the number of passes left, the local
    variables and the instance on entry, and what the passes do: one rule
    for each way a pass can go. *)
Inductive loop (computation_func : Z -> exn + value) (tolerance : float)
  : nat -> locals -> InfiniteDimensionalSystem -> run flow -> Prop :=
| loop_done l self :
    loop computation_func tolerance 0 l self (Run self [] (inr (Fallthrough l)))
| loop_call_raises n l self e :
    computation_func (l_dimension l) = inl e ->
    loop computation_func tolerance (S n) l self
         (Run self [Call (l_dimension l)] (inl e))
| loop_first n l self cur r :
    computation_func (l_dimension l) = inr cur ->
    is_None (l_previous_result l) = true ->
    loop computation_func tolerance n (next l cur) self r ->
    loop computation_func tolerance (S n) l self (after (Call (l_dimension l)) r)
| loop_distance_raises n l self cur e :
    computation_func (l_dimension l) = inr cur ->
    is_None (l_previous_result l) = false ->
    distance cur (l_previous_result l) = inl e ->
    loop computation_func tolerance (S n) l self
         (Run self [Call (l_dimension l)] (inl e))
| loop_compare_raises n l self cur err e :
    computation_func (l_dimension l) = inr cur ->
    is_None (l_previous_result l) = false ->
    distance cur (l_previous_result l) = inr err ->
    py_lt_float err tolerance = inl e ->
    loop computation_func tolerance (S n) l self
         (Run (logged self [{| dimension := l_dimension l; error := err; result := cur |}])
              [Call (l_dimension l)] (inl e))
| loop_returns_below n l self cur err :
    computation_func (l_dimension l) = inr cur ->
    is_None (l_previous_result l) = false ->
    distance cur (l_previous_result l) = inr err ->
    py_lt_float err tolerance = inr true ->
    loop computation_func tolerance (S n) l self
         (Run (logged self [{| dimension := l_dimension l; error := err; result := cur |}])
              [Call (l_dimension l)] (inr (Returned (cur, l_dimension l))))
| loop_not_below n l self cur err r :
    computation_func (l_dimension l) = inr cur ->
    is_None (l_previous_result l) = false ->
    distance cur (l_previous_result l) = inr err ->
    py_lt_float err tolerance = inr false ->
    loop computation_func tolerance n (next l cur)
         (logged self [{| dimension := l_dimension l; error := err; result := cur |}]) r ->
    loop computation_func tolerance (S n) l self (after (Call (l_dimension l)) r).

(** A record of the history that comes from a comparison made by the
    driver: its result is what the computation returns at the recorded size,
    the previous result is what it returns at half that size, and the error
    is the distance between the two. *)
Definition compared (computation_func : Z -> exn + value) (r : ConvergenceRecord)
  (previous_result : value) : Prop :=
  computation_func (dimension r / 2) = inr previous_result /\
  is_None previous_result = false /\
  computation_func (dimension r) = inr (result r) /\
  distance (result r) previous_result = inr (error r).

(** The number of passes made from pass [k] on, out of [n], when the first
    successful check ends the run. *)
Definition passes_from (computation_func : Z -> exn + value) (tolerance : float)
           (k n : nat) : nat :=
  match find (check_succeeds computation_func tolerance) (seq k n) with
  | Some i => (S i - k)%nat
  | None => n
  end.

(** The results of the first calls of a computation that returns at each of
    them, as a sequence. *)
Definition results_of (computation_func : Z -> exn + value) (i : nat) : value :=
  match computation_func (size i) with
  | inr v => v
  | inl _ => None_
  end.

(** The calls to [computation_func] among the effects, in order. *)
Definition calls (es : list effect) : list Z :=
  flat_map (fun e => match e with Call d => [d] | Warn _ => [] end) es.

Definition warnings (es : list effect) : list string :=
  flat_map (fun e => match e with Call _ => [] | Warn m => [m] end) es.

(** A method of the instance applied to its arguments. *)
Inductive operation : Type :=
| TruncateSpace (full_space : value) (cutoff : option Z)
| AdaptiveConvergence (computation_func : Z -> exn + value)
                      (tolerance : float) (max_iterations : Z).

(** The instance after an operation, and after a sequence of them; an
    exception ends an operation, not the life of the instance. *)
Definition perform (self : InfiniteDimensionalSystem) (op : operation)
  : InfiniteDimensionalSystem :=
  match op with
  | TruncateSpace full_space cutoff => final (truncate_space full_space cutoff self)
  | AdaptiveConvergence f tolerance max_iterations =>
      final (adaptive_convergence f tolerance max_iterations self)
  end.

Definition perform_all (self : InfiniteDimensionalSystem) (ops : list operation)
  : InfiniteDimensionalSystem :=
  fold_left perform ops self.

End Vocabulary.

(** ** Computations used as examples *)

Module Examples.
Import Ref.

(** [lambda n: n] *)
Definition identity (n : Z) : exn + @value runtime := inr (VInt n).

(** [lambda n: 1 / n] *)
Definition reciprocal (n : Z) : exn + @value runtime := int_truediv 1 n.

(** [lambda n: np.full(n, 1 / n)] *)
Definition constant_array (n : Z) : exn + @value runtime :=
  match int_truediv 1 n with
  | inl e => inl e
  | inr x => np_full n x
  end.

(** [lambda n: np.full(4, 1 / n)]: the same entries, at a fixed length. *)
Definition constant_array_4 (n : Z) : exn + @value runtime :=
  match int_truediv 1 n with
  | inl e => inl e
  | inr x => np_full 4 x
  end.

(** [lambda n: "a" if n == 10 else 1]: a string, then numbers. *)
Definition string_then_number (n : Z) : exn + @value runtime :=
  if n =? 10 then inr (VStr "a") else inr (VInt 1).

(** [lambda n: 1 if n == 10 else "a"]: a number, then strings. *)
Definition number_then_string (n : Z) : exn + @value runtime :=
  if n =? 10 then inr (VInt 1) else inr (VStr "a").

(** [lambda n: None] *)
Definition always_none (n : Z) : exn + @value runtime := inr VNone.

(** [lambda n: None if n == 20 else n] *)
Definition none_at_20 (n : Z) : exn + @value runtime :=
  if n =? 20 then inr VNone else inr (VInt n).

(** A function that raises [RuntimeError] from its second call on. *)
Definition raises_at_20 (n : Z) : exn + @value runtime :=
  if n =? 10 then inr (VInt 1) else inl (Raised "RuntimeError").

(** The literals [1e-2] and [1e-12]. *)
Definition tol_1e_2 : float := S754_finite false 5764607523034235 (-59).
Definition tol_1e_12 : float := S754_finite false 4951760157141521 (-92).

End Examples.

(** ** Gauge theory: [GaugeTheoryInfiniteDimensional]

    [wilson_loop] uses the matrix exponential of SciPy; it is written over
    an interface of the array operations it applies, like the driver. *)

Class LinearAlgebra : Type := {
  array : Type;
  (** [np.eye(n, dtype=complex)] *)
  np_eye_complex : Z -> exn + array;
  (** [a[i]] *)
  getitem : array -> Z -> exn + array;
  (** [sp.linalg.expm(a)] *)
  linalg_expm : array -> exn + array;
  (** [a @ b] *)
  matmul : array -> array -> exn + array;
  (** [np.trace(a)] *)
  np_trace : array -> exn + array
}.

Section Gauge.
Context {R : PyRuntime} {L : LinearAlgebra}.

(** The instance: the attributes of the base class, set by
    [super().__init__()] with the default cutoff, and the two dimensions. *)
Record GaugeTheoryInfiniteDimensional : Type := {
  gauge_base : InfiniteDimensionalSystem;
  gauge_group_dim : Z;
  spacetime_dim : Z
}.

Definition gauge__init__ (gauge_group_dimension : Z) (spacetime_dimension : option Z)
  : GaugeTheoryInfiniteDimensional :=
  {| gauge_base := __init__ 1000;
     gauge_group_dim := gauge_group_dimension;
     spacetime_dim := match spacetime_dimension with
                      | Some d => d
                      | None => 4
                      end |}.

(** Lines 305-308: the loop over [loop_path], from the value of
    [path_exponential] on entry. *)
Fixpoint wilson_steps (self : GaugeTheoryInfiniteDimensional) (gauge_field : array)
         (loop_path : list (Z * Z)) (path_exponential : array) : exn + array :=
  match loop_path with
  | [] => inr path_exponential
  | (point, direction) :: rest =>
      if direction <? spacetime_dim self then
        match getitem gauge_field direction with
        | inl e => inl e
        | inr a =>
            match linalg_expm a with
            | inl e => inl e
            | inr u =>
                match matmul path_exponential u with
                | inl e => inl e
                | inr p => wilson_steps self gauge_field rest p
                end
            end
        end
      else wilson_steps self gauge_field rest path_exponential
  end.

Definition wilson_loop (self : GaugeTheoryInfiniteDimensional) (gauge_field : array)
           (loop_path : list (Z * Z)) : exn + array :=
  match np_eye_complex (gauge_group_dim self) with
  | inl e => inl e
  | inr path_exponential =>
      match wilson_steps self gauge_field loop_path path_exponential with
      | inl e => inl e
      | inr p => np_trace p
      end
  end.

End Gauge.

(** The array operations as the expressions they build: every operation
    succeeds and returns the term that names its result. *)
Module Symbolic.

Inductive term : Type :=
| Var (name : string)
| Eye (n : Z)
| Item (a : term) (i : Z)
| Expm (a : term)
| Matmul (a b : term)
| Trace (a : term).

#[global] Instance algebra : LinearAlgebra := {|
  array := term;
  np_eye_complex := fun n => inr (Eye n);
  getitem := fun a i => inr (Item a i);
  linalg_expm := fun a => inr (Expm a);
  matmul := fun a b => inr (Matmul a b);
  np_trace := fun a => inr (Trace a)
|}.

End Symbolic.

(** *** Dense arrays of floats

    A float64 array of two, three or four dimensions: its shape, and the
    entry at each index (of no meaning outside the shape). *)
Module Dense.

Record array2 : Type := {
  rows : nat;
  cols : nat;
  at2 : nat -> nat -> float
}.

Record array3 : Type := {
  len3 : nat;
  rows3 : nat;
  cols3 : nat;
  at3 : nat -> nat -> nat -> float
}.

Record array4 : Type := {
  shape4 : nat * nat * nat * nat;
  at4 : nat -> nat -> nat -> nat -> float
}.

(** [np.zeros((d0, d1, d2, d3))] *)
Definition zeros4 (d0 d1 d2 d3 : Z) : exn + array4 :=
  if (d0 <? 0) || (d1 <? 0) || (d2 <? 0) || (d3 <? 0) then inl ValueError
  else inr {| shape4 := (Z.to_nat d0, Z.to_nat d1, Z.to_nat d2, Z.to_nat d3);
              at4 := fun _ _ _ _ => F.zero |}.

(** [a[i]] for a three-dimensional array and [0 <= i]. *)
Definition item3 (a : array3) (i : nat) : exn + array2 :=
  if Nat.ltb i (len3 a) then
    inr {| rows := rows3 a; cols := cols3 a; at2 := at3 a i |}
  else inl IndexError.

(** The sum of the products [x 0 * y 0], ..., [x (n - 1) * y (n - 1)], taken
    from the left. *)
Definition dot (n : nat) (x y : nat -> float) : float :=
  fold_left (fun acc k => F.add acc (F.mul (x k) (y k))) (seq 0 n) F.zero.

(** [a @ b] for two matrices. *)
Definition matmul2 (a b : array2) : exn + array2 :=
  if Nat.eqb (cols a) (rows b) then
    inr {| rows := rows a; cols := cols b;
           at2 := fun i j => dot (cols a) (at2 a i) (fun k => at2 b k j) |}
  else inl ValueError.

(** Broadcasting of one dimension against another: equal, or one of them 1. *)
Definition broadcast_dim (m n : nat) : option nat :=
  if Nat.eqb m n then Some m
  else if Nat.eqb m 1 then Some n
  else if Nat.eqb n 1 then Some m
  else None.

(** The index at which an operand of length [m] is read for the index [i] of
    the result. *)
Definition source (m i : nat) : nat := if Nat.eqb m 1 then 0%nat else i.

(** [a - b] for two matrices. *)
Definition sub2 (a b : array2) : exn + array2 :=
  match broadcast_dim (rows a) (rows b), broadcast_dim (cols a) (cols b) with
  | Some r, Some c =>
      inr {| rows := r; cols := c;
             at2 := fun i j =>
                      F.sub (at2 a (source (rows a) i) (source (cols a) j))
                            (at2 b (source (rows b) i) (source (cols b) j)) |}
  | _, _ => inl ValueError
  end.

(** [field_strength[mu, nu] = c]: the matrix is broadcast to the shape of
    the block. *)
Definition setitem4 (fs : array4) (mu nu : nat) (c : array2) : exn + array4 :=
  let '(d0, d1, d2, d3) := shape4 fs in
  if Nat.ltb mu d0 && Nat.ltb nu d1 then
    if (Nat.eqb (rows c) d2 || Nat.eqb (rows c) 1) &&
       (Nat.eqb (cols c) d3 || Nat.eqb (cols c) 1)
    then
      inr {| shape4 := shape4 fs;
             at4 := fun m n i j =>
                      if Nat.eqb m mu && Nat.eqb n nu
                      then at2 c (source (rows c) i) (source (cols c) j)
                      else at4 fs m n i j |}
    else inl ValueError
  else inl IndexError.

(** Line 264: [gauge_field[mu] @ gauge_field[nu] - gauge_field[nu] @ gauge_field[mu]]. *)
Definition commutator (gauge_field : array3) (mu nu : nat) : exn + array2 :=
  match item3 gauge_field mu with
  | inl e => inl e
  | inr a_mu =>
  match item3 gauge_field nu with
  | inl e => inl e
  | inr a_nu =>
  match matmul2 a_mu a_nu with
  | inl e => inl e
  | inr p =>
  match matmul2 a_nu a_mu with
  | inl e => inl e
  | inr q => sub2 p q
  end end end end.

(** Lines 260-265: the loop over [nu], for one [mu]. *)
Fixpoint for_nu (gauge_field : array3) (mu : nat) (nus : list nat)
         (field_strength : array4) : exn + array4 :=
  match nus with
  | [] => inr field_strength
  | nu :: rest =>
      if Nat.eqb mu nu then for_nu gauge_field mu rest field_strength
      else
        match commutator gauge_field mu nu with
        | inl e => inl e
        | inr c =>
            match setitem4 field_strength mu nu c with
            | inl e => inl e
            | inr fs => for_nu gauge_field mu rest fs
            end
        end
  end.

(** Lines 259-265: the loop over [mu]. *)
Fixpoint for_mu (gauge_field : array3) (d : nat) (mus : list nat)
         (field_strength : array4) : exn + array4 :=
  match mus with
  | [] => inr field_strength
  | mu :: rest =>
      match for_nu gauge_field mu (seq 0 d) field_strength with
      | inl e => inl e
      | inr fs => for_mu gauge_field d rest fs
      end
  end.

(** [_compute_field_strength], for the two dimensions of the instance. *)
Definition _compute_field_strength (spacetime_dim gauge_group_dim : Z)
           (gauge_field : array3) : exn + array4 :=
  match zeros4 spacetime_dim spacetime_dim gauge_group_dim gauge_group_dim with
  | inl e => inl e
  | inr field_strength =>
      for_mu gauge_field (Z.to_nat spacetime_dim) (seq 0 (Z.to_nat spacetime_dim))
             field_strength
  end.

(** Two floats that are the negation of one another, or both the zero that
    the difference of two equal numbers is. *)
Definition opposite (x y : float) : Prop :=
  x = SFopp y \/ (x = F.zero /\ y = F.zero).

(** The entry [i, j] that the loop writes in the block [mu, nu]: that of the
    commutator, broadcast to the block. *)
Definition written (gauge_field : array3) (mu nu i j : nat) : float :=
  match commutator gauge_field mu nu with
  | inr c => at2 c (source (rows c) i) (source (cols c) j)
  | inl _ => F.zero
  end.

(** A field of [n] matrices [m] by [m], with the entry [f mu i j]. *)
Definition field (n m : nat) (f : nat -> nat -> nat -> float) : array3 :=
  {| len3 := n; rows3 := m; cols3 := m; at3 := f |}.

(** Two 2 by 2 matrices that do not commute: [[0, 1], [0, 0]] and
    [[0, 0], [1, 0]]. *)
Definition one : float := S754_finite false 4503599627370496 (-52).

Definition raising_lowering : array3 :=
  field 2 2 (fun mu i j =>
               match mu, i, j with
               | O, O, S O => one
               | S O, S O, O => one
               | _, _, _ => F.zero
               end).

End Dense.

(** ** Statistical mechanics: [StatisticalMechanicsInfiniteDimensional]

    [find_fixed_points] draws its starting points from the generator of
    NumPy and hands them to [fsolve] of SciPy; both are taken through an
    interface, the generator with its state. *)

Class Solver (R : PyRuntime) : Type := {
  (** the state of the generator behind [np.random] *)
  rng : Type;
  (** [len(a)] *)
  py_len : value -> exn + Z;
  (** [np.random.normal(0, 1, n)], and the state of the generator afterwards *)
  random_normal : rng -> Z -> exn + value * rng;
  (** [fsolve(f, x0, xtol=1e-12)] *)
  fsolve : (value -> exn + value) -> value -> exn + value;
  (** [issubclass(cls, Exception)], for the class [cls] of the exceptions
      that are raised under a name *)
  derives_from_Exception : string -> bool
}.

(** The literal [1e-10]. *)
Definition tol_1e_10 : float := S754_finite false 7737125245533627 (-86).

Section StatisticalMechanics.
Context {R : PyRuntime} {S : Solver R}.

Record StatisticalMechanicsInfiniteDimensional : Type := {
  stat_base : InfiniteDimensionalSystem;
  couplings : value
}.

Definition stat__init__ (coupling_constants : value)
  : StatisticalMechanicsInfiniteDimensional :=
  {| stat_base := __init__ 1000; couplings := coupling_constants |}.

(** [isinstance(e, Exception)], the test of [except Exception]: the built-in
    classes among the constructors of [exn] all derive from [Exception]
    (OverflowError and ZeroDivisionError through ArithmeticError, IndexError
    through LookupError, UnboundLocalError through NameError); for any other
    class the interpreter knows. *)
Definition is_Exception (e : exn) : bool :=
  match e with
  | TypeError | ValueError | OverflowError | ZeroDivisionError
  | IndexError | AttributeError | UnboundLocalError => true
  | Raised name => derives_from_Exception name
  end.

(** Lines 367-371, the body of the [try]: the point that [fsolve] returns,
    if the flow at that point has a norm below [1e-10]. *)
Definition attempt (flow_equations : value -> exn + value) (initial_guess : value)
  : exn + option value :=
  match fsolve flow_equations initial_guess with
  | inl e => inl e
  | inr fp =>
      match flow_equations fp with
      | inl e => inl e
      | inr residual =>
          match np_linalg_norm residual with
          | inl e => inl e
          | inr n =>
              match py_lt_float n tol_1e_10 with
              | inl e => inl e
              | inr true => inr (Some fp)
              | inr false => inr None
              end
          end
      end
  end.

(** Lines 362-374, for the remaining iterations of [range(num_initial_guesses)]. *)
Fixpoint guesses (self : StatisticalMechanicsInfiniteDimensional)
         (flow_equations : value -> exn + value) (iterations : nat)
         (fixed_points : list value) (state : rng) : exn + list value * rng :=
  match iterations with
  | O => inr (fixed_points, state)
  | Datatypes.S iterations' =>
      match py_len (couplings self) with
      | inl e => inl e
      | inr n =>
          match random_normal state n with
          | inl e => inl e
          | inr (initial_guess, state') =>
              match attempt flow_equations initial_guess with
              | inr (Some fp) =>
                  guesses self flow_equations iterations' (fixed_points ++ [fp]) state'
              | inr None =>
                  guesses self flow_equations iterations' fixed_points state'
              | inl e =>
                  if is_Exception e
                  then guesses self flow_equations iterations' fixed_points state'
                  else inl e
              end
          end
      end
  end.

Definition find_fixed_points (self : StatisticalMechanicsInfiniteDimensional)
           (flow_equations : value -> exn + value) (num_initial_guesses : Z)
           (state : rng) : exn + list value * rng :=
  guesses self flow_equations (Z.to_nat num_initial_guesses) [] state.

(** A point that has passed the test of line 370. *)
Definition verified (flow_equations : value -> exn + value) (fp : value) : Prop :=
  exists initial_guess residual n,
    fsolve flow_equations initial_guess = inr fp /\
    flow_equations fp = inr residual /\
    np_linalg_norm residual = inr n /\
    py_lt_float n tol_1e_10 = inr true.

(** The starting points that successive calls of [np.random.normal(0, 1, m)]
    draw, from a state of the generator to the state after the last draw. *)
Inductive draws (m : Z) : rng -> list value -> rng -> Prop :=
| draws_nil state : draws m state [] state
| draws_cons state initial_guess state' initial_guesses state'' :
    random_normal state m = inr (initial_guess, state') ->
    draws m state' initial_guesses state'' ->
    draws m state (initial_guess :: initial_guesses) state''.

(** What the iteration that starts from [initial_guess] adds to the list:
    the point found, if it passes the test, and nothing otherwise. *)
Definition kept (flow_equations : value -> exn + value) (initial_guess : value)
  : list value :=
  match attempt flow_equations initial_guess with
  | inr (Some fp) => [fp]
  | inr None | inl _ => []
  end.

End StatisticalMechanics.

(** A generator and a solver to run the method with: the generator counts,
    drawing the constant vectors 0, 1, 2, ...; the solver evaluates the
    function at the starting point and gives the point back. *)
Module Counting.

Definition len (a : Ref.object) : exn + Z :=
  match a with
  | Ref.VArray (Ref.Float64 xs) => inr (Z.of_nat (List.length xs))
  | Ref.VArray (Ref.Complex128 xs) => inr (Z.of_nat (List.length xs))
  | Ref.VStr s => inr (Z.of_nat (String.length s))
  | _ => inl TypeError
  end.

Definition draw (state : nat) (n : Z) : exn + Ref.object * nat :=
  if n <? 0 then inl ValueError
  else inr (Ref.VArray (Ref.Float64 (repeat (F.round (Z.of_nat state) 0) (Z.to_nat n))),
            Datatypes.S state).

Definition solve (f : Ref.object -> exn + Ref.object) (x0 : Ref.object)
  : exn + Ref.object :=
  match f x0 with
  | inl e => inl e
  | inr _ => inr x0
  end.

(** The built-in classes that derive from [Exception], besides those that
    are constructors of [exn]; these runs define no class of their own. *)
Definition exception_classes : list string :=
  ["Exception"; "ArithmeticError"; "FloatingPointError"; "AssertionError";
   "BufferError"; "EOFError"; "ImportError"; "ModuleNotFoundError";
   "LookupError"; "KeyError"; "MemoryError"; "NameError"; "OSError";
   "ReferenceError"; "RuntimeError"; "NotImplementedError"; "RecursionError";
   "StopIteration"; "StopAsyncIteration"; "SyntaxError"; "SystemError";
   "UnicodeError"; "Warning"]%string.

#[global] Instance solver : Solver Ref.runtime := {|
  rng := nat;
  py_len := len;
  random_normal := draw;
  fsolve := solve;
  derives_from_Exception := fun name => existsb (String.eqb name) exception_classes
|}.

(** [lambda g: g] *)
Definition flow (g : Ref.object) : exn + @value Ref.runtime := inr g.

(** A flow that vanishes where it is defined, and is not defined at the
    points whose first coordinate is 1:
    [lambda g: np.zeros(2) * (1 // int(g[0] != 1))]. *)
Definition fails_at_one (g : Ref.object) : exn + @value Ref.runtime :=
  let zeros := Ref.VArray (Ref.Float64 [F.zero; F.zero]) in
  match g with
  | Ref.VArray (Ref.Float64 (x :: _)) =>
      if SFeqb x (F.round 1 0) then inl ZeroDivisionError else inr zeros
  | Ref.VArray (Ref.Complex128 ((re, im) :: _)) =>
      if SFeqb re (F.round 1 0) && SFeqb im F.zero then inl ZeroDivisionError
      else inr zeros
  | Ref.VArray (Ref.Float64 []) | Ref.VArray (Ref.Complex128 []) => inl IndexError
  | Ref.VStr EmptyString => inl IndexError
  | Ref.VStr (String _ _) => inr zeros
  | Ref.VNone | Ref.VInt _ | Ref.VFloat _ | Ref.VComplex _ => inl TypeError
  end.

End Counting.

(** ** Quantum systems: [measure_emergence_entropy] *)

(** [int(x)] for a float. *)
Definition int_of_float (x : float) : exn + Z :=
  match x with
  | S754_zero _ => inr 0
  | S754_finite s m e =>
      let v := if 0 <=? e then Zpos m * 2 ^ e else Zpos m / 2 ^ (- e) in
      inr (if s then - v else v)
  | S754_infinity _ => inl OverflowError
  | S754_nan => inl ValueError
  end.

Definition array_length (a : Ref.ndarray) : Z :=
  match a with
  | Ref.Float64 xs => Z.of_nat (List.length xs)
  | Ref.Complex128 xs => Z.of_nat (List.length xs)
  end.

(** Lines 190-194: [int(np.sqrt(dim))] and the test of the square; the rest
    of the method (the reshaped state, its reduced density matrix, the
    eigenvalues and their entropy) is [entropy_of], given the state and
    [sqrt_dim]. *)
Definition measure_emergence_entropy
           (entropy_of : Ref.ndarray -> Z -> exn + Ref.object)
           (quantum_state : Ref.ndarray) (partition_point : Z) : exn + Ref.object :=
  let dim := array_length quantum_state in
  match int_of_float (F.sqrt (F.round dim 0)) with
  | inl e => inl e
  | inr sqrt_dim =>
      if negb (sqrt_dim * sqrt_dim =? dim) then inl ValueError
      else entropy_of quantum_state sqrt_dim
  end.

(** The float square root finds the root of [n], or finds that it has none. *)
Definition root_found (n : Z) : bool :=
  match int_of_float (F.sqrt (F.round n 0)) with
  | inr k => (k =? Z.sqrt n)
  | inl _ => false
  end.

(** ** Properties

    Case analysis on a pass number below a literal bound. *)
Ltac each_pass i :=
  first [ exfalso; lia | destruct i as [|i]; [ | each_pass i ] ].

(** ** One pass of the loop *)

Section Passes.
Context {R : PyRuntime}.
Variable computation_func : Z -> exn + value.
Variable tolerance : float.

Lemma size_0 : size 0 = 10.
Proof. reflexivity. Qed.

Lemma size_S (i : nat) : size (S i) = size i * 2.
Proof.
  unfold size. rewrite Nat2Z.inj_succ, Z.pow_succ_r by lia. lia.
Qed.

Lemma size_pos (i : nat) : 0 < size i.
Proof. unfold size. assert (0 < 2 ^ Z.of_nat i) by (apply Z.pow_pos_nonneg; lia). lia. Qed.

Lemma logged_nil (self : InfiniteDimensionalSystem) : logged self [] = self.
Proof. destruct self; unfold logged; simpl. now rewrite app_nil_r. Qed.

Lemma logged_app (self : InfiniteDimensionalSystem) (xs ys : list ConvergenceRecord) :
  logged (logged self xs) ys = logged self (xs ++ ys).
Proof. unfold logged; simpl. now rewrite app_assoc. Qed.

Lemma next_locals_at (results : nat -> value) (i : nat) :
  next (locals_at results i) (results i) = locals_at results (S i).
Proof. unfold next, locals_at; simpl. now rewrite size_S. Qed.

(** The user's function raises: the exception leaves the loop. *)
Lemma pass_call_raises n l self e :
  computation_func (l_dimension l) = inl e ->
  for_range computation_func tolerance (S n) l self
  = Run self [Call (l_dimension l)] (inl e).
Proof.
  intros Hc. simpl. unfold bind, call. simpl. now rewrite Hc.
Qed.

(** No previous result: nothing is compared or logged. *)
Lemma pass_first n l self cur :
  computation_func (l_dimension l) = inr cur ->
  is_None (l_previous_result l) = true ->
  for_range computation_func tolerance (S n) l self
  = after (Call (l_dimension l))
      (for_range computation_func tolerance n (next l cur) self).
Proof.
  intros Hc Hn. simpl. unfold bind at 1, call. simpl. rewrite Hc, Hn. reflexivity.
Qed.

(** The subtraction, [abs] or the norm raises: nothing is logged. *)
Lemma pass_distance_raises n l self cur e :
  computation_func (l_dimension l) = inr cur ->
  is_None (l_previous_result l) = false ->
  distance cur (l_previous_result l) = inl e ->
  for_range computation_func tolerance (S n) l self
  = Run self [Call (l_dimension l)] (inl e).
Proof.
  intros Hc Hn Hd. simpl. unfold bind, call, lift. simpl. rewrite Hc, Hn. simpl.
  now rewrite Hd.
Qed.

(** The comparison with the tolerance raises, after the record is logged. *)
Lemma pass_compare_raises n l self cur err e :
  computation_func (l_dimension l) = inr cur ->
  is_None (l_previous_result l) = false ->
  distance cur (l_previous_result l) = inr err ->
  py_lt_float err tolerance = inl e ->
  for_range computation_func tolerance (S n) l self
  = Run (logged self [{| dimension := l_dimension l; error := err; result := cur |}])
        [Call (l_dimension l)] (inl e).
Proof.
  intros Hc Hn Hd Hlt. simpl. unfold bind, call, lift, append_history. simpl.
  rewrite Hc, Hn. simpl. rewrite Hd. simpl. now rewrite Hlt.
Qed.

(** The error is below the tolerance: the method returns from the loop. *)
Lemma pass_returns n l self cur err :
  computation_func (l_dimension l) = inr cur ->
  is_None (l_previous_result l) = false ->
  distance cur (l_previous_result l) = inr err ->
  py_lt_float err tolerance = inr true ->
  for_range computation_func tolerance (S n) l self
  = Run (logged self [{| dimension := l_dimension l; error := err; result := cur |}])
        [Call (l_dimension l)] (inr (Returned (cur, l_dimension l))).
Proof.
  intros Hc Hn Hd Hlt. simpl. unfold bind, call, lift, append_history, ret. simpl.
  rewrite Hc, Hn. simpl. rewrite Hd. simpl. now rewrite Hlt.
Qed.

(** The error is not below the tolerance: the loop goes on. *)
Lemma pass_goes_on n l self cur err :
  computation_func (l_dimension l) = inr cur ->
  is_None (l_previous_result l) = false ->
  distance cur (l_previous_result l) = inr err ->
  py_lt_float err tolerance = inr false ->
  for_range computation_func tolerance (S n) l self
  = after (Call (l_dimension l))
      (for_range computation_func tolerance n (next l cur)
         (logged self [{| dimension := l_dimension l; error := err; result := cur |}])).
Proof.
  intros Hc Hn Hd Hlt. simpl. unfold bind at 1, call. simpl. rewrite Hc, Hn.
  unfold bind at 1, lift. simpl. rewrite Hd. simpl.
  unfold bind at 1, append_history. simpl.
  unfold bind at 1. simpl. rewrite Hlt. simpl. reflexivity.
Qed.

(** The function [for_range] follows the rules of [loop]. *)
Lemma for_range_loop (n : nat) :
  forall l self,
    loop computation_func tolerance n l self
         (for_range computation_func tolerance n l self).
Proof.
  induction n as [|n IH]; intros l self.
  - apply loop_done.
  - destruct (computation_func (l_dimension l)) as [e|cur] eqn:Hc.
    { rewrite (pass_call_raises n l self e Hc). now apply loop_call_raises. }
    destruct (is_None (l_previous_result l)) eqn:Hn.
    { rewrite (pass_first n l self cur Hc Hn). now apply loop_first with cur. }
    destruct (distance cur (l_previous_result l)) as [e|err] eqn:Hd.
    { rewrite (pass_distance_raises n l self cur e Hc Hn Hd).
      now apply loop_distance_raises with cur. }
    destruct (py_lt_float err tolerance) as [e|[|]] eqn:Hlt.
    + rewrite (pass_compare_raises n l self cur err e Hc Hn Hd Hlt).
      now apply loop_compare_raises.
    + rewrite (pass_returns n l self cur err Hc Hn Hd Hlt).
      now apply loop_returns_below.
    + rewrite (pass_goes_on n l self cur err Hc Hn Hd Hlt).
      now apply loop_not_below with cur err.
Qed.

End Passes.

(** ** Runs of the loop *)

Section Loop.
Context {R : PyRuntime}.
Variable computation_func : Z -> exn + value.
Variable tolerance : float.
Variable results : nat -> value.

Lemma entry_first (i : nat) :
  is_None (previous results i) = true -> entry results i = [].
Proof. intros H. unfold entry. now rewrite H. Qed.

Lemma entry_compared (i : nat) (err : value) :
  is_None (previous results i) = false ->
  distance (results i) (previous results i) = inr err ->
  entry results i = [{| dimension := size i; error := err; result := results i |}].
Proof. intros H Hd. unfold entry. now rewrite H, Hd. Qed.

(** [n] passes from pass [k] on, each of which goes on to the next. *)
Lemma loop_goes_on (n : nat) :
  forall (k : nat) (self : InfiniteDimensionalSystem),
    (forall i, (k <= i < k + n)%nat -> computation_func (size i) = inr (results i)) ->
    (forall i, (k <= i < k + n)%nat -> goes_on results tolerance i) ->
    for_range computation_func tolerance n (locals_at results k) self
    = Run (logged self (flat_map (entry results) (seq k n)))
          (map (fun i => Call (size i)) (seq k n))
          (inr (Fallthrough (locals_at results (k + n)))).
Proof.
  induction n as [|n IH]; intros k self Hres Hgo.
  - simpl. unfold ret. rewrite logged_nil, Nat.add_0_r. reflexivity.
  - assert (Hk : computation_func (l_dimension (locals_at results k)) = inr (results k))
      by (apply Hres; lia).
    assert (Hrest : for_range computation_func tolerance n
                      (next (locals_at results k) (results k))
                      (logged self (entry results k))
                    = Run (logged self (flat_map (entry results) (seq k (S n))))
                          (map (fun i => Call (size i)) (seq (S k) n))
                          (inr (Fallthrough (locals_at results (k + S n))))).
    { rewrite next_locals_at, IH.
      - rewrite logged_app. simpl. now rewrite Nat.add_succ_r.
      - intros i Hi. apply Hres. lia.
      - intros i Hi. apply Hgo. lia. }
    destruct (Hgo k) as [Hnone | (err & Hnone & Hd & Hlt)]; [lia | |].
    + rewrite (pass_first _ _ n (locals_at results k) self _ Hk Hnone).
      change (l_dimension (locals_at results k)) with (size k).
      rewrite (entry_first _ Hnone), logged_nil in Hrest.
      rewrite Hrest. reflexivity.
    + rewrite (pass_goes_on _ _ n (locals_at results k) self _ _ Hk Hnone Hd Hlt).
      change (l_dimension (locals_at results k)) with (size k).
      rewrite (entry_compared _ _ Hnone Hd) in Hrest.
      rewrite Hrest. reflexivity.
Qed.

(** [j] passes that go on, then a pass at which the error is below the
    tolerance. *)
Lemma loop_returns (j : nat) :
  forall (n k : nat) (self : InfiniteDimensionalSystem) (err : value),
    (j < n)%nat ->
    (forall i, (k <= i <= k + j)%nat -> computation_func (size i) = inr (results i)) ->
    (forall i, (k <= i < k + j)%nat -> goes_on results tolerance i) ->
    is_None (previous results (k + j)) = false ->
    distance (results (k + j)) (previous results (k + j)) = inr err ->
    py_lt_float err tolerance = inr true ->
    for_range computation_func tolerance n (locals_at results k) self
    = Run (logged self (flat_map (entry results) (seq k (S j))))
          (map (fun i => Call (size i)) (seq k (S j)))
          (inr (Returned (results (k + j), size (k + j)))).
Proof.
  induction j as [|j IH]; intros n k self err Hn Hres Hgo Hnone Hd Hlt.
  - destruct n as [|n]; [lia|]. rewrite Nat.add_0_r in *.
    assert (Hk : computation_func (l_dimension (locals_at results k)) = inr (results k))
      by (apply Hres; lia).
    rewrite (pass_returns _ _ n (locals_at results k) self _ _ Hk Hnone Hd Hlt).
      change (l_dimension (locals_at results k)) with (size k).
    simpl. rewrite (entry_compared _ _ Hnone Hd). reflexivity.
  - destruct n as [|n]; [lia|].
    assert (Hk : computation_func (l_dimension (locals_at results k)) = inr (results k))
      by (apply Hres; lia).
    assert (Hrest : for_range computation_func tolerance n
                      (next (locals_at results k) (results k))
                      (logged self (entry results k))
                    = Run (logged self (flat_map (entry results) (seq k (S (S j)))))
                          (map (fun i => Call (size i)) (seq (S k) (S j)))
                          (inr (Returned (results (k + S j), size (k + S j))))).
    { rewrite next_locals_at, (IH n (S k) _ err).
      - rewrite logged_app. simpl. now rewrite Nat.add_succ_r.
      - lia.
      - intros i Hi. apply Hres. lia.
      - intros i Hi. apply Hgo. lia.
      - now rewrite Nat.add_succ_r in Hnone.
      - now rewrite Nat.add_succ_r in Hd.
      - exact Hlt. }
    destruct (Hgo k) as [Hnone' | (err' & Hnone' & Hd' & Hlt')]; [lia | |].
    + rewrite (pass_first _ _ n (locals_at results k) self _ Hk Hnone').
      change (l_dimension (locals_at results k)) with (size k).
      rewrite (entry_first _ Hnone'), logged_nil in Hrest.
      rewrite Hrest. reflexivity.
    + rewrite (pass_goes_on _ _ n (locals_at results k) self _ _ Hk Hnone' Hd' Hlt').
      change (l_dimension (locals_at results k)) with (size k).
      rewrite (entry_compared _ _ Hnone' Hd') in Hrest.
      rewrite Hrest. reflexivity.
Qed.

End Loop.

(** ** The whole method *)

Section Method.
Context {R : PyRuntime}.
Variable computation_func : Z -> exn + value.
Variable tolerance : float.

Lemma goes_on_0 (results : nat -> value) : goes_on results tolerance 0.
Proof. left. simpl. apply is_None_None. Qed.

Lemma initial_locals_at (results : nat -> value) :
  initial_locals = locals_at results 0.
Proof. reflexivity. Qed.

Lemma calls_map_Call (ds : list Z) : calls (map Call ds) = ds.
Proof. induction ds as [|d ds IH]; simpl; [reflexivity | now rewrite IH]. Qed.

Lemma warnings_map_Call (ds : list Z) : warnings (map Call ds) = [].
Proof. induction ds as [|d ds IH]; simpl; [reflexivity | exact IH]. Qed.

Lemma warnings_app (xs ys : list effect) :
  warnings (xs ++ ys) = warnings xs ++ warnings ys.
Proof. unfold warnings. now rewrite flat_map_app. Qed.

Lemma calls_app (xs ys : list effect) : calls (xs ++ ys) = calls xs ++ calls ys.
Proof. unfold calls. now rewrite flat_map_app. Qed.

(** Every pass goes on: the loop runs out, the warning is issued, and the
    method returns the result of the last call with the doubled size. *)
Lemma exhausted_run (results : nat -> value) (n : nat) (self : InfiniteDimensionalSystem) :
  (1 <= n)%nat ->
  (forall i, (i < n)%nat -> computation_func (size i) = inr (results i)) ->
  (forall i, (i < n)%nat -> goes_on results tolerance i) ->
  adaptive_convergence computation_func tolerance (Z.of_nat n) self
  = Run (logged self (flat_map (entry results) (seq 0 n)))
        (map Call (map size (seq 0 n)) ++ [Warn (failure_message (Z.of_nat n))])
        (inr (results (n - 1)%nat, size n)).
Proof.
  intros Hn Hres Hgo. unfold adaptive_convergence, bind at 1.
  rewrite Nat2Z.id, (initial_locals_at results).
  rewrite (loop_goes_on computation_func tolerance results n 0 self)
    by (intros i Hi; (apply Hres || apply Hgo); lia).
  cbn [outcome final effects]. rewrite map_map.
  destruct n as [|n]; [lia|].
  replace (S n - 1)%nat with n by lia. reflexivity.
Qed.

(** Passes 0 to [k - 1] go on and pass [k] finds the error below the
    tolerance: the method returns from pass [k]. *)
Lemma converged_run (results : nat -> value) (max_iterations : Z) (k : nat)
      (err : value) (self : InfiniteDimensionalSystem) :
  Z.of_nat k < max_iterations ->
  (forall i, (i <= k)%nat -> computation_func (size i) = inr (results i)) ->
  (forall i, (i < k)%nat -> goes_on results tolerance i) ->
  is_None (previous results k) = false ->
  distance (results k) (previous results k) = inr err ->
  py_lt_float err tolerance = inr true ->
  adaptive_convergence computation_func tolerance max_iterations self
  = Run (logged self (flat_map (entry results) (seq 0 (S k))))
        (map Call (map size (seq 0 (S k))))
        (inr (results k, size k)).
Proof.
  intros Hk Hres Hgo Hnone Hd Hlt. unfold adaptive_convergence, bind at 1.
  rewrite (initial_locals_at results).
  rewrite (loop_returns computation_func tolerance results k
             (Z.to_nat max_iterations) 0 self err);
    try assumption; try lia.
  - cbn [outcome final effects]. unfold ret. cbn [outcome final effects].
    now rewrite app_nil_r, map_map.
  - intros i Hi. apply Hres. lia.
  - intros i Hi. apply Hgo. lia.
Qed.

End Method.

(** ** Non-convergence *)

(** C1 (amended).  For every computation, tolerance and [max_iterations >= 1]:
    if every call returns and no pass finds the error below the tolerance,
    [adaptive_convergence] calls the computation at the sizes 10, 20, 40, ...
    (one call per pass), issues exactly one warning, and returns a pair
    whose first component is the last computed result, the result of the
    last call, made at the size [10 * 2 ^ (max_iterations - 1)].  For
    [compute(n) = n] and [max_iterations = 3] that result is 40, computed at
    the size 40.

    The second component of the pair is left unstated: the docstring
    promises the final dimension used, and the fall-through [return] of
    line 95 comes after one more [dimension *= 2]. *)
Theorem exhausted_returns_last_result
        (R : PyRuntime) (computation_func : Z -> exn + value) (tolerance : float)
        (results : nat -> value) (n : nat) (self : InfiniteDimensionalSystem) :
  (1 <= n)%nat ->
  (forall i, (i < n)%nat -> computation_func (size i) = inr (results i)) ->
  (forall i, (i < n)%nat -> goes_on results tolerance i) ->
  let r := adaptive_convergence computation_func tolerance (Z.of_nat n) self in
  (exists d, outcome r = inr (results (n - 1)%nat, d)) /\
  last (calls (effects r)) 0 = 10 * 2 ^ (Z.of_nat n - 1) /\
  calls (effects r) = map size (seq 0 n) /\
  warnings (effects r) = [failure_message (Z.of_nat n)].
Proof.
  intros Hn Hres Hgo r. subst r.
  rewrite (exhausted_run computation_func tolerance results n self Hn Hres Hgo).
  cbn [outcome effects]. refine (conj _ (conj _ (conj _ _))).
  - now exists (size n).
  - rewrite calls_app, calls_map_Call, app_nil_r.
    destruct n as [|n]; [lia|]. rewrite seq_S, map_app. cbn [map].
    rewrite last_last.
    unfold size. f_equal. f_equal. lia.
  - now rewrite calls_app, calls_map_Call, app_nil_r.
  - now rewrite warnings_app, warnings_map_Call.
Qed.

Lemma exhausted_returns_last_result_witness :
  let r := adaptive_convergence Examples.identity Examples.tol_1e_12 3 (__init__ 1000) in
  (exists d, outcome r = inr (Ref.VInt 40, d)) /\
  last (calls (effects r)) 0 = 40 /\
  calls (effects r) = [10; 20; 40] /\
  warnings (effects r) = ["Failed to converge within 3 iterations"%string].
Proof.
  apply (exhausted_returns_last_result Ref.runtime Examples.identity Examples.tol_1e_12
           (results_of Examples.identity) 3 (__init__ 1000)).
  - lia.
  - intros i Hi. each_pass i; reflexivity.
  - intros i Hi. each_pass i;
      [ left; reflexivity
      | right; eexists; repeat split; reflexivity
      | right; eexists; repeat split; reflexivity ].
Defined.

(** C1, as stated, fails: with [compute(n) = n] and three iterations no pass
    converges, the warning is issued once, and the pair returned is
    (40, 80), not (80, 80). *)
Lemma exhausted_identity_is_not_80_80 :
  let r := adaptive_convergence Examples.identity Examples.tol_1e_12 3 (__init__ 1000) in
  warnings (effects r) = [failure_message 3] /\
  outcome r = inr (Ref.VInt 40, 80) /\
  outcome r <> inr (Ref.VInt 80, 80).
Proof.
  repeat split; try reflexivity.
  vm_compute. intros H. discriminate H.
Qed.

(** ** Convergence *)

Lemma float_lt_irrefl (x : float) : F.ltb x x = false.
Proof.
  unfold F.ltb, SFltb, SFcompare.
  destruct x as [s|s| |s m e]; try destruct s; try reflexivity;
    rewrite Z.compare_refl, Pos.compare_cont_refl; reflexivity.
Qed.

(** C2.  If pass [k] is the first at which a previous result exists and the
    error is below the tolerance, [adaptive_convergence] returns the result
    of that pass with the size at which it was computed; the computation is
    not called at any larger size and no warning is issued.  The comparison
    is strict: an error equal to the tolerance is not below it. *)
Theorem first_success_returns
        (R : PyRuntime) (computation_func : Z -> exn + value) (tolerance : float)
        (results : nat -> value) (max_iterations : Z) (k : nat) (err : value)
        (self : InfiniteDimensionalSystem) :
  Z.of_nat k < max_iterations ->
  (forall i, (i <= k)%nat -> computation_func (size i) = inr (results i)) ->
  (forall i, (i < k)%nat -> goes_on results tolerance i) ->
  is_None (previous results k) = false ->
  distance (results k) (previous results k) = inr err ->
  py_lt_float err tolerance = inr true ->
  let r := adaptive_convergence computation_func tolerance max_iterations self in
  outcome r = inr (results k, size k) /\
  effects r = map Call (map size (seq 0 (S k))) /\
  last (convergence_history (final r))
       {| dimension := 0; error := None_; result := None_ |}
  = {| dimension := size k; error := err; result := results k |} /\
  py_lt_float (of_float tolerance) tolerance = inr false.
Proof.
  intros Hk Hres Hgo Hnone Hd Hlt r. subst r.
  rewrite (converged_run computation_func tolerance results max_iterations k err self
             Hk Hres Hgo Hnone Hd Hlt).
  cbn [outcome effects final]. repeat split.
  - unfold logged. cbn [convergence_history].
    replace (S k) with (k + 1)%nat by lia.
    rewrite seq_app, flat_map_app. simpl.
    rewrite (entry_compared results k err Hnone Hd).
    now rewrite app_nil_r, app_assoc, last_last.
  - now rewrite float_lt_spec, float_lt_irrefl.
Qed.

Lemma first_success_returns_witness :
  let r := adaptive_convergence Examples.reciprocal Examples.tol_1e_2 10 (__init__ 1000) in
  outcome r = inr (results_of Examples.reciprocal 4, 160) /\
  effects r = [Call 10; Call 20; Call 40; Call 80; Call 160] /\
  last (convergence_history (final r))
       {| dimension := 0; error := Ref.VNone; result := Ref.VNone |}
  = {| dimension := 160;
       error := results_of Examples.reciprocal 4;
       result := results_of Examples.reciprocal 4 |} /\
  Ref.lt_float (Ref.VFloat Examples.tol_1e_2) Examples.tol_1e_2 = inr false.
Proof.
  apply (first_success_returns Ref.runtime Examples.reciprocal Examples.tol_1e_2
           (results_of Examples.reciprocal) 10 4 (results_of Examples.reciprocal 4)
           (__init__ 1000)).
  - lia.
  - intros i Hi. each_pass i; reflexivity.
  - intros i Hi. each_pass i;
      [ left; reflexivity
      | right; eexists; repeat split; reflexivity .. ].
  - reflexivity.
  - reflexivity.
  - reflexivity.
Defined.

(** ** Properties of every run *)

Section Runs.
Context {R : PyRuntime}.
Variable computation_func : Z -> exn + value.
Variable tolerance : float.

(** The method is the loop, then the warning when the loop runs out. *)
Lemma adaptive_convergence_loop (max_iterations : Z) (self : InfiniteDimensionalSystem) :
  let r := for_range computation_func tolerance (Z.to_nat max_iterations)
                     initial_locals self in
  adaptive_convergence computation_func tolerance max_iterations self
  = match outcome r with
    | inl e => Run (final r) (effects r) (inl e)
    | inr (Returned p) => Run (final r) (effects r ++ []) (inr p)
    | inr (Fallthrough l) =>
        Run (final r) (effects r ++ [Warn (failure_message max_iterations)])
            match l_current_result l with
            | Some current_result => inr (current_result, l_dimension l)
            | None => inl UnboundLocalError
            end
    end.
Proof.
  intros r. subst r. unfold adaptive_convergence, bind at 1.
  destruct (outcome (for_range _ _ _ _ _)) as [e|[l|p]]; [reflexivity | | reflexivity].
  unfold bind, warn, ret, raise. cbn [outcome final effects].
  destruct (l_current_result l); reflexivity.
Qed.

Lemma adaptive_convergence_final (max_iterations : Z) (self : InfiniteDimensionalSystem) :
  final (adaptive_convergence computation_func tolerance max_iterations self)
  = final (for_range computation_func tolerance (Z.to_nat max_iterations)
                     initial_locals self).
Proof.
  rewrite adaptive_convergence_loop.
  destruct (outcome (for_range _ _ _ _ _)) as [e|[l|p]]; reflexivity.
Qed.

(** The loop only appends, and what it appends are comparisons of the
    results at a size and at half that size. *)
Lemma loop_compared n l self r :
  loop computation_func tolerance n l self r ->
  (is_None (l_previous_result l) = false ->
   computation_func (l_dimension l / 2) = inr (l_previous_result l)) ->
  exists new,
    final r = logged self new /\
    Forall (fun rec => exists prev, compared computation_func rec prev) new.
Proof.
  induction 1 as [l self | n l self e Hc | n l self cur r Hc Hn Hr IH
                 | n l self cur e Hc Hn Hd | n l self cur err e Hc Hn Hd Hlt
                 | n l self cur err Hc Hn Hd Hlt | n l self cur err r Hc Hn Hd Hlt Hr IH];
    intros Hprev; cbn [final after].
  - exists []. now rewrite logged_nil.
  - exists []. now rewrite logged_nil.
  - apply IH. intros _. cbn [next l_dimension l_previous_result].
    now rewrite Z.div_mul by lia.
  - exists []. now rewrite logged_nil.
  - eexists. split; [reflexivity|]. constructor; [|constructor].
    exists (l_previous_result l). unfold compared; cbn [dimension result error]. auto.
  - eexists. split; [reflexivity|]. constructor; [|constructor].
    exists (l_previous_result l). unfold compared; cbn [dimension result error]. auto.
  - destruct IH as (new & Hfinal & Hall).
    { intros _. cbn [next l_dimension l_previous_result]. now rewrite Z.div_mul by lia. }
    eexists. split; [rewrite Hfinal; apply logged_app|].
    constructor; [|exact Hall].
    exists (l_previous_result l). unfold compared; cbn [dimension result error]. auto.
Qed.

(** An exception of the computation ends the loop at that call. *)
Lemma loop_raise n l self r :
  loop computation_func tolerance n l self r ->
  forall d e,
    In (Call d) (effects r) ->
    computation_func d = inl e ->
    outcome r = inl e /\
    exists ds, effects r = map Call ds ++ [Call d] /\ ~ In d ds.
Proof.
  induction 1 as [l self | n l self e' Hc | n l self cur r Hc Hn Hr IH
                 | n l self cur e' Hc Hn Hd | n l self cur err e' Hc Hn Hd Hlt
                 | n l self cur err Hc Hn Hd Hlt | n l self cur err r Hc Hn Hd Hlt Hr IH];
    intros d e Hin He; cbn [effects outcome after] in *.
  - destruct Hin.
  - destruct Hin as [Heq|[]]. injection Heq as <-.
    split; [congruence|]. exists []. auto.
  - destruct Hin as [Heq|Hin]; [injection Heq as <-; congruence|].
    destruct (IH d e Hin He) as (Hout & ds & Heff & Hnot).
    split; [exact Hout|]. exists (l_dimension l :: ds). split.
    + now rewrite Heff.
    + intros [Heq|Hd']; [subst d; congruence | contradiction].
  - destruct Hin as [Heq|[]]. injection Heq as <-. congruence.
  - destruct Hin as [Heq|[]]. injection Heq as <-. congruence.
  - destruct Hin as [Heq|[]]. injection Heq as <-. congruence.
  - destruct Hin as [Heq|Hin]; [injection Heq as <-; congruence|].
    destruct (IH d e Hin He) as (Hout & ds & Heff & Hnot).
    split; [exact Hout|]. exists (l_dimension l :: ds). split.
    + now rewrite Heff.
    + intros [Heq|Hd']; [subst d; congruence | contradiction].
Qed.

End Runs.

(** ** The error between successive results *)

Lemma float_inf_not_below (t : float) : F.ltb F.inf t = false.
Proof. destruct t as [s|s| |s m e]; try destruct s; reflexivity. Qed.

Lemma distance_cases {R : PyRuntime} (current_result previous_result err : value) :
  distance current_result previous_result = inr err ->
  if isinstance_scalar current_result then
    exists d, py_sub current_result previous_result = inr d /\ py_abs d = inr err
  else if isinstance_ndarray current_result then
    exists d, py_sub current_result previous_result = inr d /\ np_linalg_norm d = inr err
  else
    err = of_float F.inf /\ forall t, py_lt_float err t = inr false.
Proof.
  unfold distance. intros H.
  destruct (isinstance_scalar current_result).
  - destruct (py_sub current_result previous_result) as [e|d]; [discriminate|].
    exists d. auto.
  - destruct (isinstance_ndarray current_result).
    + destruct (py_sub current_result previous_result) as [e|d]; [discriminate|].
      exists d. auto.
    + injection H as <-. split; [reflexivity|].
      intros t. now rewrite float_lt_spec, float_inf_not_below.
Qed.

Lemma zip_with_singleton {A B C} (f : A -> B -> C) (x : A) (y : B) :
  Ref.zip_with f [x] [y] = [f x y].
Proof. reflexivity. Qed.

Lemma broadcast_same_length {A B C} (f : A -> B -> C) (xs : list A) (ys : list B) :
  List.length xs = List.length ys ->
  Ref.broadcast f xs ys = Some (Ref.zip_with f xs ys).
Proof.
  intros H. unfold Ref.broadcast.
  destruct xs as [|x [|x' xs]]; destruct ys as [|y [|y' ys]];
    try discriminate H; try reflexivity.
  now rewrite H, Nat.eqb_refl.
Qed.

(** C3.  Every record that a run appends to the history comes from a
    comparison of the result at its size with the result at half that size,
    and its error is: [abs] of their difference when the current result is
    an int, a float or a complex number; [np.linalg.norm] of their difference
    when it is an array; and the float infinity, which is below no
    tolerance, for any other type.  On the reference runtime the first is the
    absolute value of the difference, and the second the square root of the
    sum of the squares of the element-wise difference. *)
Theorem distance_by_type :
  (forall (R : PyRuntime) (computation_func : Z -> exn + value) (tolerance : float)
          (max_iterations : Z) (self : InfiniteDimensionalSystem),
      exists new,
        convergence_history
          (final (adaptive_convergence computation_func tolerance max_iterations self))
        = convergence_history self ++ new /\
        Forall (fun r =>
                  exists previous_result,
                    computation_func (dimension r / 2) = inr previous_result /\
                    computation_func (dimension r) = inr (result r) /\
                    if isinstance_scalar (result r) then
                      exists d, py_sub (result r) previous_result = inr d /\
                                py_abs d = inr (error r)
                    else if isinstance_ndarray (result r) then
                      exists d, py_sub (result r) previous_result = inr d /\
                                np_linalg_norm d = inr (error r)
                    else
                      error r = of_float F.inf /\
                      forall t, py_lt_float (error r) t = inr false) new) /\
  (forall a b : Z,
      distance (Ref.VInt a) (Ref.VInt b) = inr (Ref.VInt (Z.abs (a - b)))) /\
  (forall x y : float,
      distance (Ref.VFloat x) (Ref.VFloat y) = inr (Ref.VFloat (F.abs (F.sub x y)))) /\
  (forall a b : Ref.complex,
      distance (Ref.VComplex a) (Ref.VComplex b)
      = Ref.abs (Ref.VComplex (F.sub (fst a) (fst b), F.sub (snd a) (snd b)))) /\
  (forall re im : float,
      F.is_finite (Ref.hypot re im) = true ->
      Ref.abs (Ref.VComplex (re, im)) = inr (Ref.VFloat (Ref.hypot re im))) /\
  (forall xs ys : list float,
      List.length xs = List.length ys ->
      distance (Ref.VArray (Ref.Float64 xs)) (Ref.VArray (Ref.Float64 ys))
      = inr (Ref.VFloat
               (F.sqrt (fold_left (fun acc d => F.add acc (F.mul d d))
                                  (Ref.zip_with F.sub xs ys) F.zero)))) /\
  (forall (s : string) (previous_result : Ref.object),
      distance (Ref.VStr s) previous_result = inr (Ref.VFloat F.inf)).
Proof.
  refine (conj _ (conj _ (conj _ (conj _ (conj _ (conj _ _)))))).
  - intros R f tolerance max_iterations self.
    rewrite adaptive_convergence_final.
    destruct (loop_compared f tolerance _ _ _ _
                (for_range_loop f tolerance (Z.to_nat max_iterations) initial_locals self))
      as (new & Hfinal & Hall).
    { cbn [initial_locals l_previous_result]. rewrite is_None_None. discriminate. }
    exists new. rewrite Hfinal. split; [reflexivity|].
    eapply Forall_impl; [|exact Hall].
    intros r (prev & Hprev & _ & Hcur & Hd). exists prev.
    repeat split; try assumption. now apply distance_cases.
  - reflexivity.
  - reflexivity.
  - intros [re im] [re' im']. reflexivity.
  - intros re im H. cbn [Ref.abs]. now rewrite H, andb_false_r.
  - intros xs ys H. unfold distance. cbn.
    unfold Ref.array_sub. now rewrite (broadcast_same_length F.sub xs ys H).
  - reflexivity.
Qed.

(** ** The history only grows *)

Section History.
Context {R : PyRuntime}.

Lemma truncate_space_final (full_space : value) (cutoff : option Z)
      (self : InfiniteDimensionalSystem) :
  final (truncate_space full_space cutoff self) = self.
Proof.
  unfold truncate_space, bind, lift, raise. cbn [outcome final effects].
  destruct (shape_len full_space) as [e|n]; cbn [final]; [reflexivity|].
  destruct (Nat.eqb n 1); [reflexivity|].
  destruct (Nat.eqb n 2); reflexivity.
Qed.

Lemma adaptive_convergence_appends (computation_func : Z -> exn + value)
      (tolerance : float) (max_iterations : Z) (self : InfiniteDimensionalSystem) :
  exists new,
    final (adaptive_convergence computation_func tolerance max_iterations self)
    = logged self new.
Proof.
  rewrite adaptive_convergence_final.
  destruct (loop_compared computation_func tolerance _ _ _ _
              (for_range_loop computation_func tolerance
                 (Z.to_nat max_iterations) initial_locals self))
    as (new & Hfinal & _).
  - cbn [initial_locals l_previous_result]. rewrite is_None_None. discriminate.
  - now exists new.
Qed.

Lemma perform_appends (op : operation) (self : InfiniteDimensionalSystem) :
  exists new, perform self op = logged self new.
Proof.
  destruct op as [full_space cutoff | f tolerance max_iterations]; cbn [perform].
  - exists []. now rewrite truncate_space_final, logged_nil.
  - apply adaptive_convergence_appends.
Qed.

Lemma perform_all_appends (ops : list operation) :
  forall self, exists new, perform_all self ops = logged self new.
Proof.
  induction ops as [|op ops IH]; intros self.
  - exists []. now rewrite logged_nil.
  - cbn [perform_all fold_left].
    destruct (perform_appends op self) as (new1 & H1).
    destruct (IH (perform self op)) as (new2 & H2).
    exists (new1 ++ new2). unfold perform_all in H2.
    now rewrite H2, H1, logged_app.
Qed.

End History.

(** C8.  The history is empty when the instance is made, and every method
    leaves in it all the records there were, in their places and unchanged,
    with the new records after them; the cutoff is never changed.  So it is
    after any sequence of calls, whether they return or raise: the length
    never decreases, and what a later call appends comes after what an
    earlier call appended. *)
Theorem history_append_only (R : PyRuntime) :
  (forall cutoff, convergence_history (__init__ cutoff) = []) /\
  (forall (op : operation) (self : InfiniteDimensionalSystem),
      exists new,
        convergence_history (perform self op) = convergence_history self ++ new /\
        dimension_cutoff (perform self op) = dimension_cutoff self) /\
  (forall (ops : list operation) (self : InfiniteDimensionalSystem),
      exists new,
        convergence_history (perform_all self ops) = convergence_history self ++ new /\
        (List.length (convergence_history self)
         <= List.length (convergence_history (perform_all self ops)))%nat) /\
  (forall (ops ops' : list operation) (self : InfiniteDimensionalSystem),
      exists new new',
        convergence_history (perform_all self ops) = convergence_history self ++ new /\
        convergence_history (perform_all self (ops ++ ops'))
        = (convergence_history self ++ new) ++ new').
Proof.
  refine (conj _ (conj _ (conj _ _))).
  - reflexivity.
  - intros op self. destruct (perform_appends op self) as (new & H).
    exists new. now rewrite H.
  - intros ops self. destruct (perform_all_appends ops self) as (new & H).
    exists new. rewrite H. cbn [logged convergence_history].
    split; [reflexivity|]. rewrite length_app. lia.
  - intros ops ops' self.
    destruct (perform_all_appends ops self) as (new & H).
    destruct (perform_all_appends ops' (perform_all self ops)) as (new' & H').
    exists new, new'. unfold perform_all in *. rewrite fold_left_app, H', H.
    split; reflexivity.
Qed.

(** ** Exceptions of the computation *)

(** C9.  If the computation raises at a size at which the driver calls it,
    that exception is what leaves [adaptive_convergence], unchanged; the
    raising call is the last thing the method does (no further call, no
    warning, no value returned), and the computation had not been called at
    that size before. *)
Theorem exception_propagates
        (R : PyRuntime) (computation_func : Z -> exn + value) (tolerance : float)
        (max_iterations : Z) (self : InfiniteDimensionalSystem) (d : Z) (e : exn) :
  In (Call d)
     (effects (adaptive_convergence computation_func tolerance max_iterations self)) ->
  computation_func d = inl e ->
  let r := adaptive_convergence computation_func tolerance max_iterations self in
  outcome r = inl e /\
  (exists ds, effects r = map Call ds ++ [Call d] /\ ~ In d ds) /\
  warnings (effects r) = [].
Proof.
  intros Hin He r. subst r.
  rewrite adaptive_convergence_loop in *.
  pose proof (loop_raise computation_func tolerance _ _ _ _
                (for_range_loop computation_func tolerance
                   (Z.to_nat max_iterations) initial_locals self) d e) as Hloop.
  destruct (outcome (for_range _ _ _ _ _)) as [e'|[l|p]]; cbn [effects outcome] in *.
  - destruct (Hloop Hin He) as (Hout & ds & Heff & Hnot).
    injection Hout as ->.
    split; [reflexivity|]. split; [now exists ds|].
    now rewrite Heff, warnings_app, warnings_map_Call.
  - apply in_app_or in Hin. destruct Hin as [Hin|[Hw|[]]]; [|discriminate Hw].
    destruct (Hloop Hin He) as (Hout & _). discriminate Hout.
  - rewrite app_nil_r in Hin.
    destruct (Hloop Hin He) as (Hout & _). discriminate Hout.
Qed.

Lemma exception_propagates_witness :
  let r := adaptive_convergence Examples.raises_at_20 Examples.tol_1e_12 10 (__init__ 1000) in
  outcome r = inl (Raised "RuntimeError") /\
  (exists ds, effects r = map Call ds ++ [Call 20] /\ ~ In 20 ds) /\
  warnings (effects r) = [].
Proof.
  apply (exception_propagates Ref.runtime Examples.raises_at_20 Examples.tol_1e_12 10
           (__init__ 1000) 20 (Raised "RuntimeError")).
  - vm_compute. right. left. reflexivity.
  - reflexivity.
Defined.

(** ** A single iteration *)

(** C10.  With [max_iterations = 1] the computation is called once, at size
    10, nothing is compared and nothing is appended to the history.  If that
    call returns, the warning is issued and the method returns its result
    with the size 20; if it raises, the exception leaves the method.  A run
    that returns without the warning has [max_iterations >= 2]. *)
Theorem single_iteration
        (R : PyRuntime) (computation_func : Z -> exn + value) (tolerance : float)
        (self : InfiniteDimensionalSystem) :
  let r := adaptive_convergence computation_func tolerance 1 self in
  calls (effects r) = [10] /\
  final r = self /\
  match computation_func 10 with
  | inr v => outcome r = inr (v, 20) /\ warnings (effects r) = [failure_message 1]
  | inl e => outcome r = inl e /\ warnings (effects r) = []
  end /\
  forall (max_iterations : Z) (self' : InfiniteDimensionalSystem) (p : value * Z),
    let r' := adaptive_convergence computation_func tolerance max_iterations self' in
    outcome r' = inr p -> warnings (effects r') = [] -> 2 <= max_iterations.
Proof.
  assert (Hone : forall s,
             adaptive_convergence computation_func tolerance 1 s
             = match computation_func 10 with
               | inr v => Run s [Call 10; Warn (failure_message 1)] (inr (v, 20))
               | inl e => Run s [Call 10] (inl e)
               end).
  { intros s. rewrite adaptive_convergence_loop. cbn zeta.
    change (Z.to_nat 1) with 1%nat.
    destruct (computation_func 10) as [e|v] eqn:Hc.
    - now rewrite (pass_call_raises computation_func tolerance 0 initial_locals s e Hc).
    - rewrite (pass_first computation_func tolerance 0 initial_locals s v Hc is_None_None).
      reflexivity. }
  cbn zeta. rewrite Hone. repeat split.
  - destruct (computation_func 10); reflexivity.
  - destruct (computation_func 10); reflexivity.
  - destruct (computation_func 10); split; reflexivity.
  - intros max_iterations self' p Hout Hw.
    destruct (Z_lt_le_dec max_iterations 2) as [Hlt|]; [exfalso|assumption].
    destruct (Z_le_gt_dec max_iterations 0) as [H0|H0].
    + rewrite adaptive_convergence_loop in Hw. cbn zeta in Hw.
      replace (Z.to_nat max_iterations) with 0%nat in Hw by lia.
      discriminate Hw.
    + assert (max_iterations = 1) as -> by lia.
      rewrite Hone in Hout, Hw.
      destruct (computation_func 10); [discriminate Hout | discriminate Hw].
Qed.

(** ** Results that cannot be compared *)

Lemma Forall_flat_map {A B} (P : B -> Prop) (f : A -> list B) (xs : list A) :
  (forall x, In x xs -> Forall P (f x)) -> Forall P (flat_map f xs).
Proof.
  induction xs as [|x xs IH]; intros H; simpl.
  - constructor.
  - apply Forall_app. split.
    + apply H. now left.
    + apply IH. intros y Hy. apply H. now right.
Qed.

(** C4 (amended).  When every result after the first is neither a scalar
    nor an array (strings after a number, say), each error is the float
    infinity, no tolerance check succeeds, nothing is raised, and the run
    ends on the non-convergence path: one warning, and the last result
    returned. *)
Theorem other_types_never_converge
        (R : PyRuntime) (computation_func : Z -> exn + value) (tolerance : float)
        (results : nat -> value) (n : nat) (self : InfiniteDimensionalSystem) :
  (1 <= n)%nat ->
  (forall i, (i < n)%nat -> computation_func (size i) = inr (results i)) ->
  (forall i, (1 <= i < n)%nat ->
             isinstance_scalar (results i) = false /\
             isinstance_ndarray (results i) = false) ->
  let r := adaptive_convergence computation_func tolerance (Z.of_nat n) self in
  outcome r = inr (results (n - 1)%nat, size n) /\
  warnings (effects r) = [failure_message (Z.of_nat n)] /\
  exists new,
    convergence_history (final r) = convergence_history self ++ new /\
    Forall (fun rec => error rec = of_float F.inf /\
                       py_lt_float (error rec) tolerance = inr false) new.
Proof.
  intros Hn Hres Hother r. subst r.
  assert (Hd : forall i, (1 <= i < n)%nat ->
                 distance (results i) (previous results i) = inr (of_float F.inf)).
  { intros i Hi. unfold distance. destruct (Hother i Hi) as [-> ->]. reflexivity. }
  assert (Hgo : forall i, (i < n)%nat -> goes_on results tolerance i).
  { intros [|i] Hi; [apply goes_on_0|].
    destruct (is_None (previous results (S i))) eqn:Hnone; [now left|].
    right. exists (of_float F.inf). split; [exact Hnone|]. split.
    - apply Hd. lia.
    - now rewrite float_lt_spec, float_inf_not_below. }
  rewrite (exhausted_run computation_func tolerance results n self Hn Hres Hgo).
  cbn [outcome effects final]. repeat split.
  - now rewrite warnings_app, warnings_map_Call.
  - eexists. split; [reflexivity|].
    apply Forall_flat_map. intros i Hi. apply in_seq in Hi.
    unfold entry. destruct (is_None (previous results i)) eqn:Hnone; [constructor|].
    destruct i as [|i]; [simpl in Hnone; rewrite is_None_None in Hnone; discriminate|].
    rewrite Hd by lia. constructor; [|constructor]. cbn [error]. split; [reflexivity|].
    now rewrite float_lt_spec, float_inf_not_below.
Qed.

Lemma other_types_never_converge_witness :
  let r := adaptive_convergence Examples.number_then_string Examples.tol_1e_12 3
                                (__init__ 1000) in
  outcome r = inr (Ref.VStr "a", 80) /\
  warnings (effects r) = ["Failed to converge within 3 iterations"%string] /\
  exists new,
    convergence_history (final r) = [] ++ new /\
    Forall (fun rec => error rec = Ref.VFloat F.inf /\
                       Ref.lt_float (error rec) Examples.tol_1e_12 = inr false) new.
Proof.
  apply (other_types_never_converge Ref.runtime Examples.number_then_string
           Examples.tol_1e_12 (results_of Examples.number_then_string) 3 (__init__ 1000)).
  - lia.
  - intros i Hi. each_pass i; reflexivity.
  - intros i Hi. destruct i as [|i]; [lia|]. each_pass i; split; reflexivity.
Defined.

(** C4, as stated, fails: a string on the first call and a number on the
    second make [current_result - previous_result] raise TypeError, and two
    arrays of lengths 20 and 10 make it raise ValueError; either exception
    leaves the method. *)
Lemma mixed_results_raise :
  outcome (adaptive_convergence Examples.string_then_number Examples.tol_1e_12 10
                                (__init__ 1000)) = inl TypeError /\
  Ref.sub (Ref.VInt 1) (Ref.VStr "a") = inl TypeError /\
  outcome (adaptive_convergence Examples.constant_array Examples.tol_1e_12 10
                                (__init__ 1000)) = inl ValueError.
Proof. repeat split; reflexivity. Qed.

(** ** The worked examples *)

(** C5 (amended).  For [compute(n) = 1 / n] with the tolerance [1e-2] and
    ten iterations the run succeeds at size 160, the first passing step:
    the errors logged at the sizes 20, 40, 80 and 160 are the floats 1/20,
    1/40, 1/80 and 1/160 (0.05, 0.025, 0.0125 and 0.00625), and only the
    last is below 0.01.  The floats are [7205759403792794 * 2^e] for
    [e = -58, -59, -60], and 0.01 is [5764607523034235 * 2^-59]. *)
Theorem reciprocal_converges_at_160 (self : InfiniteDimensionalSystem) :
  let r := adaptive_convergence Examples.reciprocal Examples.tol_1e_2 10 self in
  let x := results_of Examples.reciprocal in
  outcome r = inr (x 4%nat, 160) /\
  Examples.reciprocal 160 = inr (x 4%nat) /\
  convergence_history (final r)
  = convergence_history self ++
    [ {| dimension := 20; error := x 1%nat; result := x 1%nat |};
      {| dimension := 40; error := x 2%nat; result := x 2%nat |};
      {| dimension := 80; error := x 3%nat; result := x 3%nat |};
      {| dimension := 160; error := x 4%nat; result := x 4%nat |} ] /\
  distance (x 2%nat) (x 1%nat) = inr (x 2%nat) /\
  Ref.lt_float (x 2%nat) Examples.tol_1e_2 = inr false /\
  distance (x 3%nat) (x 2%nat) = inr (x 3%nat) /\
  Ref.lt_float (x 3%nat) Examples.tol_1e_2 = inr false /\
  distance (x 4%nat) (x 3%nat) = inr (x 4%nat) /\
  Ref.lt_float (x 4%nat) Examples.tol_1e_2 = inr true /\
  Ref.int_truediv 1 100 = inr (Ref.VFloat Examples.tol_1e_2) /\
  x 2%nat = Ref.VFloat (S754_finite false 7205759403792794 (-58)) /\
  x 3%nat = Ref.VFloat (S754_finite false 7205759403792794 (-59)) /\
  x 4%nat = Ref.VFloat (S754_finite false 7205759403792794 (-60)).
Proof.
  cbn zeta.
  rewrite (converged_run Examples.reciprocal Examples.tol_1e_2
             (results_of Examples.reciprocal) 10 4
             (results_of Examples.reciprocal 4) self).
  - cbn [outcome final]. repeat split; reflexivity.
  - lia.
  - intros i Hi. each_pass i; reflexivity.
  - intros i Hi. each_pass i;
      [ left; reflexivity
      | right; eexists; repeat split; reflexivity .. ].
  - reflexivity.
  - reflexivity.
  - reflexivity.
Qed.

(** C5, as stated, fails: the run does not return at size 80, where the
    error is the float 1/80 = 0.0125, which is not below 0.01; it returns at
    size 160. *)
Lemma reciprocal_does_not_stop_at_80 :
  let r := adaptive_convergence Examples.reciprocal Examples.tol_1e_2 10 (__init__ 1000) in
  (forall v, outcome r <> inr (v, 80)) /\
  (exists v, outcome r = inr (v, 160)) /\
  nth 2 (map error (convergence_history (final r))) Ref.VNone
  = results_of Examples.reciprocal 3 /\
  Ref.lt_float (results_of Examples.reciprocal 3) Examples.tol_1e_2 = inr false.
Proof.
  repeat split.
  - intros v H. vm_compute in H. discriminate H.
  - eexists. reflexivity.
Qed.

(** C6 (amended).  For [compute(n) = np.full(n, 1 / n)] the results at the
    sizes 20 and 10 have the lengths 20 and 10, their difference raises
    ValueError, and no distance is computed: with two iterations or more the
    run raises at the second call and logs nothing.  For arrays of one
    length the error is the L2 norm of the difference: for
    [np.full(4, 1 / n)] at the sizes 20 and 10 it is
    [sqrt(4) * |1/20 - 1/10|]. *)
Theorem constant_array_shapes_differ
        (tolerance : float) (max_iterations : Z) (self : InfiniteDimensionalSystem) :
  2 <= max_iterations ->
  adaptive_convergence Examples.constant_array tolerance max_iterations self
  = Run self [Call 10; Call 20] (inl ValueError) /\
  distance (results_of Examples.constant_array 1) (results_of Examples.constant_array 0)
  = inl ValueError /\
  exists x10 x20 four,
    Ref.int_truediv 1 10 = inr (Ref.VFloat x10) /\
    Ref.int_truediv 1 20 = inr (Ref.VFloat x20) /\
    F.of_int 4 = Some four /\
    distance (results_of Examples.constant_array_4 1)
             (results_of Examples.constant_array_4 0)
    = inr (Ref.VFloat (F.mul (F.sqrt four) (F.abs (F.sub x20 x10)))).
Proof.
  intros Hmax. split; [|split].
  - rewrite adaptive_convergence_loop. cbn zeta.
    destruct (Z.to_nat max_iterations) as [|[|n]] eqn:Hn; [lia | lia |].
    rewrite (pass_first Examples.constant_array tolerance (S n) initial_locals self
               (results_of Examples.constant_array 0) eq_refl eq_refl).
    rewrite (pass_distance_raises Examples.constant_array tolerance n
               (next initial_locals (results_of Examples.constant_array 0)) self
               (results_of Examples.constant_array 1) ValueError
               eq_refl eq_refl eq_refl).
    reflexivity.
  - reflexivity.
  - do 3 eexists. repeat split; reflexivity.
Qed.

Lemma constant_array_shapes_differ_witness :
  adaptive_convergence Examples.constant_array Examples.tol_1e_12 10 (__init__ 1000)
  = Run (__init__ 1000) [Call 10; Call 20] (inl ValueError).
Proof.
  apply (constant_array_shapes_differ Examples.tol_1e_12 10 (__init__ 1000)). lia.
Defined.

(** C6, as stated, fails: between the arrays that [np.full(n, 1 / n)]
    returns at the sizes 20 and 10 the driver computes no distance, the
    subtraction raises. *)
Lemma constant_array_has_no_distance :
  Examples.constant_array 20 = inr (results_of Examples.constant_array 1) /\
  Examples.constant_array 10 = inr (results_of Examples.constant_array 0) /\
  (forall err, distance (results_of Examples.constant_array 1)
                        (results_of Examples.constant_array 0) <> inr err) /\
  convergence_history
    (final (adaptive_convergence Examples.constant_array Examples.tol_1e_12 10
                                 (__init__ 1000))) = [].
Proof.
  repeat split. intros err H. vm_compute in H. discriminate H.
Qed.

(** ** The length of the history *)

Section Length.
Context {R : PyRuntime}.
Variable computation_func : Z -> exn + value.
Variable tolerance : float.

Lemma find_seq_ge (f : nat -> bool) (k n i : nat) :
  find f (seq k n) = Some i -> (k <= i < k + n)%nat.
Proof.
  intros H. apply find_some in H. destruct H as [H _]. apply in_seq in H. lia.
Qed.

Lemma passes_from_stop (k n : nat) :
  check_succeeds computation_func tolerance k = true ->
  passes_from computation_func tolerance k (S n) = 1%nat.
Proof.
  intros H. unfold passes_from. cbn [seq find]. rewrite H. lia.
Qed.

Lemma passes_from_next (k n : nat) :
  check_succeeds computation_func tolerance k = false ->
  passes_from computation_func tolerance k (S n)
  = S (passes_from computation_func tolerance (S k) n).
Proof.
  intros H. unfold passes_from. cbn [seq find]. rewrite H.
  destruct (find _ (seq (S k) n)) as [i|] eqn:Hf; [|reflexivity].
  apply find_seq_ge in Hf. lia.
Qed.

(** From a pass that has a previous result on, when no result is [None]
    and nothing is raised, each pass made appends one record, of its size. *)
Lemma loop_history n l self r :
  loop computation_func tolerance n l self r ->
  forall k,
    l_dimension l = size (S k) ->
    computation_func (size k) = inr (l_previous_result l) ->
    is_None (l_previous_result l) = false ->
    (forall i v, (k < i < S k + n)%nat ->
                 computation_func (size i) = inr v -> is_None v = false) ->
    (forall e, outcome r <> inl e) ->
    exists new,
      final r = logged self new /\
      map dimension new
      = map size (seq (S k) (passes_from computation_func tolerance (S k) n)).
Proof.
  induction 1 as [l self | n l self e' Hc | n l self cur r Hc Hn Hr IH
                 | n l self cur e' Hc Hn Hd | n l self cur err e' Hc Hn Hd Hlt
                 | n l self cur err Hc Hn Hd Hlt | n l self cur err r Hc Hn Hd Hlt Hr IH];
    intros k Hdim Hprev Hnone Hsome Hok; cbn [final outcome after] in *.
  - exists []. split; [now rewrite logged_nil | reflexivity].
  - now destruct (Hok e').
  - congruence.
  - now destruct (Hok e').
  - now destruct (Hok e').
  - exists [{| dimension := l_dimension l; error := err; result := cur |}].
    split; [reflexivity|].
    rewrite passes_from_stop; [cbn; now rewrite Hdim|].
    cbn [check_succeeds]. rewrite Hprev, <- Hdim, Hc, Hnone, Hd, Hlt. reflexivity.
  - destruct (IH (S k)) as (new & Hfinal & Hdims).
    + cbn [next l_dimension]. rewrite Hdim. symmetry. apply size_S.
    + cbn [next l_previous_result]. now rewrite <- Hdim.
    + cbn [next l_previous_result]. apply (Hsome (S k)); [lia|]. now rewrite <- Hdim.
    + intros i v Hi. apply Hsome. lia.
    + exact Hok.
    + exists ([{| dimension := l_dimension l; error := err; result := cur |}] ++ new).
      split; [rewrite Hfinal; apply logged_app|].
      rewrite passes_from_next.
      * cbn [app map seq dimension]. now rewrite Hdims, Hdim.
      * cbn [check_succeeds]. rewrite Hprev, <- Hdim, Hc, Hnone, Hd, Hlt. reflexivity.
Qed.

Lemma passes_run_passes_from (n : nat) :
  (1 <= n)%nat ->
  (passes_run n (convergence_iteration computation_func tolerance n) - 1)%nat
  = passes_from computation_func tolerance 1 (n - 1).
Proof.
  intros Hn. destruct n as [|n]; [lia|].
  unfold convergence_iteration, passes_from, passes_run.
  replace (S n - 1)%nat with n by lia. cbn [seq find check_succeeds].
  destruct (find _ (seq 1 n)) as [i|] eqn:Hf; cbn [option_map].
  - apply find_seq_ge in Hf. lia.
  - lia.
Qed.

(** The history that a run without exceptions and without [None] results
    adds to any instance. *)
Lemma run_history (n : nat) (self : InfiniteDimensionalSystem) :
  (1 <= n)%nat ->
  (forall i v, (i < n)%nat -> computation_func (size i) = inr v -> is_None v = false) ->
  (forall e, outcome (adaptive_convergence computation_func tolerance
                                           (Z.of_nat n) self) <> inl e) ->
  exists new,
    final (adaptive_convergence computation_func tolerance (Z.of_nat n) self)
    = logged self new /\
    map dimension new
    = map size (seq 1 (passes_run n (convergence_iteration computation_func tolerance n) - 1)).
Proof.
  intros Hn Hsome Hok.
  rewrite adaptive_convergence_final.
  assert (Hloop : forall e,
             outcome (for_range computation_func tolerance n initial_locals self) <> inl e).
  { intros e He. apply (Hok e). rewrite adaptive_convergence_loop. cbn zeta.
    rewrite Nat2Z.id, He. reflexivity. }
  rewrite Nat2Z.id, passes_run_passes_from by exact Hn.
  destruct n as [|n]; [lia|]. replace (S n - 1)%nat with n by lia.
  destruct (computation_func 10) as [e|v] eqn:Hc.
  { exfalso. apply (Hloop e).
    now rewrite (pass_call_raises computation_func tolerance n initial_locals self e Hc). }
  rewrite (pass_first computation_func tolerance n initial_locals self v Hc is_None_None)
    in Hloop |- *.
  cbn [final outcome after] in *.
  apply (loop_history _ _ _ _ (for_range_loop computation_func tolerance n
                                 (next initial_locals v) self) 0%nat).
  - reflexivity.
  - exact Hc.
  - apply (Hsome 0%nat); [lia | exact Hc].
  - intros i w Hi. apply Hsome. lia.
  - exact Hloop.
Qed.

End Length.




(** A result that is [None] is taken for the absence of a previous result:
    a computation that returns [None] at every call is never compared, and
    three iterations leave the history empty. *)
Lemma none_results_are_not_compared :
  let r := adaptive_convergence Examples.always_none Examples.tol_1e_12 3 (__init__ 1000) in
  convergence_history (final r) = [] /\
  outcome r = inr (Ref.VNone, 80) /\
  convergence_iteration Examples.always_none Examples.tol_1e_12 3 = None.
Proof. repeat split; reflexivity. Qed.

(** X6.  With [max_iterations <= 0] the loop makes no pass and binds
    nothing to [current_result]: the computation is not called, the warning
    is issued all the same, and the [return] raises UnboundLocalError. *)
Lemma no_iteration_is_unbound (R : PyRuntime) (computation_func : Z -> exn + value)
      (tolerance : float) (max_iterations : Z) (self : InfiniteDimensionalSystem) :
  max_iterations <= 0 ->
  adaptive_convergence computation_func tolerance max_iterations self
  = Run self [Warn (failure_message max_iterations)] (inl UnboundLocalError).
Proof.
  intros H. rewrite adaptive_convergence_loop. cbn zeta.
  replace (Z.to_nat max_iterations) with 0%nat by lia. reflexivity.
Qed.

(** ** What every run of the driver does *)

Section EveryRun.
Context {R : PyRuntime}.
Variable computation_func : Z -> exn + value.
Variable tolerance : float.

(** The rules of [loop], named for [induction]. *)
Ltac loop_induction H :=
  induction H as [l self | n l self e' Hc | n l self cur r Hc Hn Hr IH
                 | n l self cur e' Hc Hn Hd | n l self cur err e' Hc Hn Hd Hlt
                 | n l self cur err Hc Hn Hd Hlt | n l self cur err r Hc Hn Hd Hlt Hr IH].

(** The calls of the loop are at consecutive sizes of the doubling sequence,
    one for each pass made; the loop issues no warning itself, and it runs
    out only after all its passes. *)
Lemma loop_effects n l self r :
  loop computation_func tolerance n l self r ->
  forall j,
    l_dimension l = size j ->
    exists k,
      (k <= n)%nat /\ (1 <= n -> 1 <= k)%nat /\
      effects r = map Call (map size (seq j k)) /\
      (forall l', outcome r = inr (Fallthrough l') ->
                  k = n /\ l_dimension l' = size (j + n)) /\
      (forall p, outcome r = inr (Returned p) ->
                 (1 <= k)%nat /\ snd p = size (j + k - 1)).
Proof.
  intros H. loop_induction H; intros j Hj; cbn [effects outcome after].
  - exists 0%nat. repeat apply conj; try lia; try reflexivity.
    + intros l' H. injection H as <-. now rewrite Nat.add_0_r.
    + intros p H. discriminate H.
  - exists 1%nat. rewrite Hj. repeat apply conj; try lia; try reflexivity;
      intros ? H; discriminate H.
  - destruct (IH (S j)) as (k & Hk & Hk1 & Heff & Hfall & Hret).
    { cbn [next l_dimension]. rewrite Hj. symmetry. apply size_S. }
    exists (S k). rewrite Heff, Hj. repeat apply conj; try lia; try reflexivity.
    + intros l' H. destruct (Hfall l' H) as [-> ->]. split; [reflexivity|].
      f_equal. lia.
    + intros p H. destruct (Hret p H) as [Hk' ->]. split; [lia|]. f_equal. lia.
  - exists 1%nat. rewrite Hj. repeat apply conj; try lia; try reflexivity;
      intros ? H; discriminate H.
  - exists 1%nat. rewrite Hj. repeat apply conj; try lia; try reflexivity;
      intros ? H; discriminate H.
  - exists 1%nat. rewrite Hj. repeat apply conj; try lia; try reflexivity.
    + intros l' H. discriminate H.
    + intros p H. injection H as <-. cbn [snd]. split; [lia|].
      f_equal. lia.
  - destruct (IH (S j)) as (k & Hk & Hk1 & Heff & Hfall & Hret).
    { cbn [next l_dimension]. rewrite Hj. symmetry. apply size_S. }
    exists (S k). rewrite Heff, Hj. repeat apply conj; try lia; try reflexivity.
    + intros l' H. destruct (Hfall l' H) as [-> ->]. split; [reflexivity|].
      f_equal. lia.
    + intros p H. destruct (Hret p H) as [Hk' ->]. split; [lia|]. f_equal. lia.
Qed.

(** When the loop runs out after at least one pass, [current_result] is
    bound to the result of the last call. *)
Lemma loop_fallthrough n l self r :
  loop computation_func tolerance n l self r ->
  forall j,
    l_dimension l = size j ->
    (forall v, l_current_result l = Some v ->
               (1 <= j)%nat /\ computation_func (size (j - 1)) = inr v) ->
    forall l',
      outcome r = inr (Fallthrough l') ->
      (forall v, l_current_result l' = Some v ->
                 (1 <= j + n)%nat /\ computation_func (size (j + n - 1)) = inr v) /\
      ((1 <= n)%nat -> l_current_result l' <> None).
Proof.
  intros H. loop_induction H; intros j Hj Hcur l' Hout; cbn [outcome after] in Hout;
    try discriminate Hout.
  - injection Hout as <-. rewrite Nat.add_0_r. split; [exact Hcur | lia].
  - destruct (IH (S j)) with (l' := l') as [H1 H2]; try assumption.
    + cbn [next l_dimension]. rewrite Hj. symmetry. apply size_S.
    + cbn [next l_current_result]. intros v Hv. injection Hv as <-.
      split; [lia|]. replace (S j - 1)%nat with j by lia. now rewrite <- Hj.
    + replace (j + S n)%nat with (S j + n)%nat by lia. split; [exact H1|].
      intros _. destruct n as [|n]; [|apply H2; lia].
      inversion Hr; subst. cbn [outcome] in Hout. injection Hout as <-. discriminate.
  - destruct (IH (S j)) with (l' := l') as [H1 H2]; try assumption.
    + cbn [next l_dimension]. rewrite Hj. symmetry. apply size_S.
    + cbn [next l_current_result]. intros v Hv. injection Hv as <-.
      split; [lia|]. replace (S j - 1)%nat with j by lia. now rewrite <- Hj.
    + replace (j + S n)%nat with (S j + n)%nat by lia. split; [exact H1|].
      intros _. destruct n as [|n]; [|apply H2; lia].
      inversion Hr; subst. cbn [outcome] in Hout. injection Hout as <-. discriminate.
Qed.

(** A return from inside the loop comes from a comparison that succeeded:
    the pair returned is the result of the last call and its size, the
    previous call returned something other than [None], the error between
    the two is below the tolerance, and the record of this comparison is
    the last of the history. *)
Lemma loop_returned n l self r :
  loop computation_func tolerance n l self r ->
  forall j,
    l_dimension l = size j ->
    (is_None (l_previous_result l) = false ->
     (1 <= j)%nat /\ computation_func (size (j - 1)) = inr (l_previous_result l)) ->
    forall v d,
      outcome r = inr (Returned (v, d)) ->
      exists k prev err new,
        (1 <= k)%nat /\ d = size k /\
        computation_func (size k) = inr v /\
        computation_func (size (k - 1)) = inr prev /\
        is_None prev = false /\
        distance v prev = inr err /\
        py_lt_float err tolerance = inr true /\
        final r = logged self (new ++ [{| dimension := d; error := err; result := v |}]).
Proof.
  intros H. loop_induction H; intros j Hj Hprev v d Hout; cbn [outcome after final] in *;
    try discriminate Hout.
  - destruct (IH (S j)) with (v := v) (d := d)
      as (k & prev & err & new & Hk); try assumption.
    + cbn [next l_dimension]. rewrite Hj. symmetry. apply size_S.
    + cbn [next l_previous_result]. intros _. split; [lia|].
      replace (S j - 1)%nat with j by lia. now rewrite <- Hj.
    + exists k, prev, err, new. exact Hk.
  - injection Hout as <- <-. destruct (Hprev Hn) as [Hj1 Hp].
    exists j, (l_previous_result l), err, []. rewrite <- Hj. auto 10.
  - destruct (IH (S j)) with (v := v) (d := d)
      as (k & prev & err' & new & Hk1 & Hdk & Hv & Hp & Hnp & Hdist & Hbelow & Hfinal);
      try assumption.
    + cbn [next l_dimension]. rewrite Hj. symmetry. apply size_S.
    + cbn [next l_previous_result]. intros _. split; [lia|].
      replace (S j - 1)%nat with j by lia. now rewrite <- Hj.
    + exists k, prev, err',
        ({| dimension := l_dimension l; error := err; result := cur |} :: new).
      repeat split; try assumption.
      rewrite Hfinal, logged_app. reflexivity.
Qed.

(** What the loop appends: at most one record for each pass made, none
    for a pass without a previous result, at sizes that increase. *)
Lemma loop_appended n l self r :
  loop computation_func tolerance n l self r ->
  forall j,
    l_dimension l = size j ->
    exists new idx,
      final r = logged self new /\
      map dimension new = map size idx /\
      StronglySorted lt idx /\
      Forall (fun i => (j <= i < j + n)%nat /\
                       (i = j -> is_None (l_previous_result l) = false)) idx /\
      (List.length new <= n)%nat /\
      (is_None (l_previous_result l) = true -> (List.length new <= n - 1)%nat).
Proof.
  assert (Hnone : forall self' m j' prev,
             exists new idx,
               self' = logged self' new /\
               map dimension new = map size idx /\
               StronglySorted lt idx /\
               Forall (fun i => (j' <= i < j' + m)%nat /\
                                (i = j' -> is_None prev = false)) idx /\
               (List.length new <= m)%nat /\
               (is_None prev = true -> (List.length new <= m - 1)%nat)).
  { intros self' m j' prev. exists [], []. rewrite logged_nil.
    repeat apply conj; try constructor; simpl; lia. }
  assert (Hone : forall self' m j' l' err cur,
             l_dimension l' = size j' ->
             is_None (l_previous_result l') = false ->
             exists new idx,
               logged self' [{| dimension := l_dimension l'; error := err; result := cur |}]
               = logged self' new /\
               map dimension new = map size idx /\
               StronglySorted lt idx /\
               Forall (fun i => (j' <= i < j' + S m)%nat /\
                                (i = j' -> is_None (l_previous_result l') = false)) idx /\
               (List.length new <= S m)%nat /\
               (is_None (l_previous_result l') = true ->
                (List.length new <= S m - 1)%nat)).
  { intros self' m j' l' err cur Hj' Hn'.
    exists [{| dimension := l_dimension l'; error := err; result := cur |}], [j'].
    cbn [map dimension List.length]. rewrite Hj'.
    repeat apply conj; try reflexivity.
    - repeat constructor.
    - constructor; [|constructor]. split; [lia|]. intros _. exact Hn'.
    - lia.
    - congruence. }
  intros H. loop_induction H; intros j Hj; cbn [final after].
  - apply Hnone.
  - apply Hnone.
  - destruct (IH (S j)) as (new & idx & Hfin & Hdims & Hsorted & Hall & Hlen & _).
    { cbn [next l_dimension]. rewrite Hj. symmetry. apply size_S. }
    exists new, idx. repeat apply conj; try assumption; try lia.
    eapply Forall_impl; [|exact Hall]. cbn beta. intros i [Hi _]. split; lia.
  - apply Hnone.
  - now apply Hone.
  - now apply Hone.
  - destruct (IH (S j)) as (new & idx & Hfin & Hdims & Hsorted & Hall & Hlen & _).
    { cbn [next l_dimension]. rewrite Hj. symmetry. apply size_S. }
    exists ({| dimension := l_dimension l; error := err; result := cur |} :: new), (j :: idx).
    repeat apply conj.
    + rewrite Hfin, logged_app. reflexivity.
    + cbn [map dimension]. now rewrite Hdims, Hj.
    + constructor; [exact Hsorted|].
      eapply Forall_impl; [|exact Hall]. cbn beta. intros i [Hi _]. lia.
    + constructor; [split; [lia | intros _; exact Hn]|].
      eapply Forall_impl; [|exact Hall]. cbn beta. intros i [Hi _]. split; lia.
    + simpl. lia.
    + congruence.
Qed.

(** The loop does to any other instance what it does to [self]: the same
    effects, the same outcome, the same records appended. *)
Lemma loop_any_instance n l self r :
  loop computation_func tolerance n l self r ->
  forall self',
    exists new,
      final r = logged self new /\
      for_range computation_func tolerance n l self'
      = Run (logged self' new) (effects r) (outcome r).
Proof.
  intros H. loop_induction H; intros self'.
  - exists []. now rewrite !logged_nil.
  - exists []. rewrite !logged_nil. split; [reflexivity|].
    now apply pass_call_raises.
  - destruct (IH self') as (new & Hfin & Hrun). exists new. split; [exact Hfin|].
    rewrite (pass_first _ _ n l self' cur Hc Hn), Hrun. reflexivity.
  - exists []. rewrite !logged_nil. split; [reflexivity|].
    now apply pass_distance_raises with cur.
  - eexists. split; [reflexivity|]. now apply pass_compare_raises.
  - eexists. split; [reflexivity|]. now apply pass_returns.
  - destruct (IH (logged self' [{| dimension := l_dimension l; error := err;
                                   result := cur |}])) as (new & Hfin & Hrun).
    eexists. split; [cbn [final after]; rewrite Hfin; apply logged_app|].
    rewrite (pass_goes_on _ _ n l self' cur err Hc Hn Hd Hlt), Hrun.
    unfold after. cbn [final effects outcome]. now rewrite logged_app.
Qed.

End EveryRun.

Lemma size_inj (i j : nat) : size i = size j -> i = j.
Proof.
  unfold size. intros H.
  assert (H' : 2 ^ Z.of_nat i = 2 ^ Z.of_nat j) by lia.
  apply Z.pow_inj_r in H'; lia.
Qed.

(** X1.  In every run, whatever the computation does, the driver calls it
    at the sizes 10, 20, 40, ... in this order, each size once, and stops at
    some point of the sequence: after at most [max_iterations] calls, and
    after at least one when [max_iterations >= 1]. *)
Theorem calls_follow_doubling
        (R : PyRuntime) (computation_func : Z -> exn + value) (tolerance : float)
        (max_iterations : Z) (self : InfiniteDimensionalSystem) :
  let r := adaptive_convergence computation_func tolerance max_iterations self in
  exists k,
    (k <= Z.to_nat max_iterations)%nat /\
    (1 <= max_iterations -> (1 <= k)%nat) /\
    calls (effects r) = map size (seq 0 k).
Proof.
  cbn zeta. rewrite adaptive_convergence_loop. cbn zeta.
  destruct (loop_effects computation_func tolerance _ _ _ _
              (for_range_loop computation_func tolerance
                 (Z.to_nat max_iterations) initial_locals self) 0%nat eq_refl)
    as (k & Hk & Hk1 & Heff & _).
  exists k. split; [exact Hk|]. split; [intros; apply Hk1; lia|].
  destruct (outcome (for_range _ _ _ _ _)) as [e|[l|p]]; cbn [effects];
    rewrite ?calls_app, Heff, calls_map_Call; cbn [calls flat_map];
    now rewrite ?app_nil_r.
Qed.

(** X2.  A return without the warning is a converged one: the pair returned
    is the result of the last call and the size of that call, the call
    before it returned a result that is not [None], the error between the
    two results is below the tolerance, and the record of that comparison is
    the last of the history. *)
Theorem success_is_converged
        (R : PyRuntime) (computation_func : Z -> exn + value) (tolerance : float)
        (max_iterations : Z) (self : InfiniteDimensionalSystem) (v : value) (d : Z) :
  outcome (adaptive_convergence computation_func tolerance max_iterations self)
  = inr (v, d) ->
  warnings (effects (adaptive_convergence computation_func tolerance
                                          max_iterations self)) = [] ->
  let r := adaptive_convergence computation_func tolerance max_iterations self in
  exists k prev err,
    (1 <= k < Z.to_nat max_iterations)%nat /\
    d = size k /\
    computation_func d = inr v /\
    computation_func (d / 2) = inr prev /\
    is_None prev = false /\
    distance v prev = inr err /\
    py_lt_float err tolerance = inr true /\
    calls (effects r) = map size (seq 0 (S k)) /\
    last (convergence_history (final r))
         {| dimension := 0; error := None_; result := None_ |}
    = {| dimension := d; error := err; result := v |}.
Proof.
  intros Hout Hw. cbn zeta. rewrite adaptive_convergence_loop in *. cbn zeta in *.
  pose proof (for_range_loop computation_func tolerance
                (Z.to_nat max_iterations) initial_locals self) as Hloop.
  destruct (loop_effects _ _ _ _ _ _ Hloop 0%nat eq_refl)
    as (k' & Hk & _ & Heff & _ & Hret).
  pose proof (loop_returned _ _ _ _ _ _ Hloop 0%nat eq_refl) as Hreturned.
  destruct (outcome (for_range _ _ _ _ _)) as [e|[l|p]]; cbn [outcome effects final] in *.
  - discriminate Hout.
  - rewrite warnings_app in Hw. destruct (warnings (effects _)); discriminate Hw.
  - injection Hout as ->.
    destruct (Hreturned) with (v := v) (d := d)
      as (k & prev & err & new & Hk1 & Hd & Hv & Hp & Hnp & Hdist & Hbelow & Hfinal).
    { cbn [initial_locals l_previous_result]. rewrite is_None_None. discriminate. }
    { reflexivity. }
    destruct (Hret (v, d) eq_refl) as [Hk'1 Hsnd]. cbn [snd] in Hsnd.
    assert (k' = S k) as ->.
    { rewrite Hd in Hsnd. apply size_inj in Hsnd. lia. }
    exists k, prev, err. repeat apply conj; try assumption; try lia.
    + now rewrite Hd.
    + rewrite Hd. destruct k as [|k]; [lia|].
      rewrite size_S, Z.div_mul by lia. now replace (S k - 1)%nat with k in Hp by lia.
    + now rewrite app_nil_r, Heff, calls_map_Call.
    + rewrite Hfinal. cbn [logged convergence_history].
      now rewrite app_assoc, last_last.
Qed.

Lemma success_is_converged_witness :
  let r := adaptive_convergence Examples.reciprocal Examples.tol_1e_2 10 (__init__ 1000) in
  exists k prev err,
    (1 <= k < Z.to_nat 10)%nat /\
    160 = size k /\
    Examples.reciprocal 160 = inr (results_of Examples.reciprocal 4) /\
    Examples.reciprocal (160 / 2) = inr prev /\
    Ref.is_none prev = false /\
    distance (results_of Examples.reciprocal 4) prev = inr err /\
    Ref.lt_float err Examples.tol_1e_2 = inr true /\
    calls (effects r) = map size (seq 0 (S k)) /\
    last (convergence_history (final r))
         {| dimension := 0; error := Ref.VNone; result := Ref.VNone |}
    = {| dimension := 160; error := err; result := results_of Examples.reciprocal 4 |}.
Proof.
  apply (success_is_converged Ref.runtime Examples.reciprocal Examples.tol_1e_2 10
           (__init__ 1000) (results_of Examples.reciprocal 4) 160); reflexivity.
Defined.

(** X3.  The warning is issued only when the loop has run out: then it is
    the one warning and the last effect of the call, the computation has been
    called at each of the [max_iterations] sizes, and the method returns the
    result of the last call with the size after the last doubling; with
    [max_iterations <= 0] there is no call and no result, and the [return]
    raises UnboundLocalError. *)
Theorem warning_means_exhausted
        (R : PyRuntime) (computation_func : Z -> exn + value) (tolerance : float)
        (max_iterations : Z) (self : InfiniteDimensionalSystem) :
  warnings (effects (adaptive_convergence computation_func tolerance
                                          max_iterations self)) <> [] ->
  let r := adaptive_convergence computation_func tolerance max_iterations self in
  let n := Z.to_nat max_iterations in
  effects r = map Call (map size (seq 0 n)) ++ [Warn (failure_message max_iterations)] /\
  ((max_iterations <= 0 /\ outcome r = inl UnboundLocalError) \/
   (1 <= max_iterations /\
    exists v, computation_func (size (n - 1)) = inr v /\ outcome r = inr (v, size n))).
Proof.
  intros Hw. cbn zeta. rewrite adaptive_convergence_loop in *. cbn zeta in *.
  pose proof (for_range_loop computation_func tolerance
                (Z.to_nat max_iterations) initial_locals self) as Hloop.
  destruct (loop_effects _ _ _ _ _ _ Hloop 0%nat eq_refl)
    as (k & Hk & _ & Heff & Hfall & _).
  pose proof (loop_fallthrough _ _ _ _ _ _ Hloop 0%nat eq_refl) as Hcur.
  destruct (outcome (for_range _ _ _ _ _)) as [e|[l|p]]; cbn [outcome effects final] in *.
  - exfalso. apply Hw. now rewrite Heff, warnings_map_Call.
  - destruct (Hfall l eq_refl) as [-> Hdim].
    destruct (Hcur) with (l' := l) as [Hsome Hbound]; [discriminate | reflexivity |].
    split; [now rewrite Heff|].
    destruct (Z_le_gt_dec max_iterations 0) as [H0|H0].
    + left. split; [exact H0|].
      destruct (l_current_result l) as [v|] eqn:Hl; [|reflexivity].
      destruct (Hsome v eq_refl). lia.
    + right. split; [lia|].
      destruct (l_current_result l) as [v|] eqn:Hl; [|exfalso; apply Hbound; [lia|reflexivity]].
      exists v. destruct (Hsome v eq_refl) as [_ Hv]. split; [exact Hv|].
      now rewrite Hdim.
  - exfalso. apply Hw. now rewrite app_nil_r, Heff, warnings_map_Call.
Qed.

Lemma warning_means_exhausted_witness :
  let r := adaptive_convergence Examples.identity Examples.tol_1e_12 3 (__init__ 1000) in
  effects r = [Call 10; Call 20; Call 40; Warn "Failed to converge within 3 iterations"] /\
  ((3 <= 0 /\ outcome r = inl UnboundLocalError) \/
   (1 <= 3 /\
    exists v, Examples.identity (size 2) = inr v /\ outcome r = inr (v, size 3))).
Proof.
  apply (warning_means_exhausted Ref.runtime Examples.identity Examples.tol_1e_12 3
           (__init__ 1000)).
  vm_compute. discriminate.
Defined.

(** X4.  A call appends at most [max_iterations - 1] records, whatever the
    computation returns or raises; their sizes are taken from 20, 40, ...,
    [10 * 2 ^ (max_iterations - 1)] and increase along the history, so that
    no size is recorded twice by one call. *)
Theorem history_growth_bound
        (R : PyRuntime) (computation_func : Z -> exn + value) (tolerance : float)
        (max_iterations : Z) (self : InfiniteDimensionalSystem) :
  let r := adaptive_convergence computation_func tolerance max_iterations self in
  exists new idx,
    convergence_history (final r) = convergence_history self ++ new /\
    (List.length new <= Z.to_nat max_iterations - 1)%nat /\
    map dimension new = map size idx /\
    StronglySorted lt idx /\
    Forall (fun i => (1 <= i < Z.to_nat max_iterations)%nat) idx.
Proof.
  cbn zeta. rewrite adaptive_convergence_final.
  destruct (loop_appended computation_func tolerance _ _ _ _
              (for_range_loop computation_func tolerance
                 (Z.to_nat max_iterations) initial_locals self) 0%nat eq_refl)
    as (new & idx & Hfin & Hdims & Hsorted & Hall & _ & Hlen).
  exists new, idx. rewrite Hfin. repeat apply conj; try assumption; try reflexivity.
  - apply Hlen. apply is_None_None.
  - eapply Forall_impl; [|exact Hall]. cbn beta. intros i [Hi Hnone].
    split; [|lia]. destruct i as [|i]; [|lia].
    specialize (Hnone eq_refl). cbn [initial_locals l_previous_result] in Hnone.
    rewrite is_None_None in Hnone. discriminate Hnone.
Qed.

(** X5.  What a call does never depends on the history that the instance
    already holds: on any two instances the same arguments give the same
    calls and warnings, the same outcome, and the same records appended. *)
Theorem run_ignores_earlier_history
        (R : PyRuntime) (computation_func : Z -> exn + value) (tolerance : float)
        (max_iterations : Z) (self self' : InfiniteDimensionalSystem) :
  let r := adaptive_convergence computation_func tolerance max_iterations self in
  let r' := adaptive_convergence computation_func tolerance max_iterations self' in
  effects r = effects r' /\
  outcome r = outcome r' /\
  exists new,
    convergence_history (final r) = convergence_history self ++ new /\
    convergence_history (final r') = convergence_history self' ++ new.
Proof.
  cbn zeta.
  destruct (loop_any_instance computation_func tolerance _ _ _ _
              (for_range_loop computation_func tolerance
                 (Z.to_nat max_iterations) initial_locals self) self')
    as (new & Hfin & Hrun).
  rewrite !adaptive_convergence_loop. cbn zeta. rewrite Hrun.
  cbn [outcome effects final].
  destruct (outcome (for_range _ _ _ _ self)) as [e|[l|p]]; cbn [outcome effects final];
    rewrite Hfin; repeat split; exists new; split; reflexivity.
Qed.

Lemma no_iteration_is_unbound_witness :
  adaptive_convergence Examples.identity Examples.tol_1e_12 0 (__init__ 1000)
  = Run (__init__ 1000) [Warn "Failed to converge within 0 iterations"]
        (inl UnboundLocalError).
Proof.
  apply (no_iteration_is_unbound Ref.runtime Examples.identity Examples.tol_1e_12 0
           (__init__ 1000)).
  lia.
Defined.

(** X7.  A result that is [None] passes for no result at all.  When the
    computation returns [None] at every call, no two results are compared:
    nothing is appended to the history, and after [max_iterations] calls the
    method warns and returns [None] with the doubled size. *)
Theorem none_is_never_compared
        (R : PyRuntime) (computation_func : Z -> exn + value) (tolerance : float)
        (n : nat) (self : InfiniteDimensionalSystem) :
  (1 <= n)%nat ->
  (forall i, (i < n)%nat -> computation_func (size i) = inr None_) ->
  adaptive_convergence computation_func tolerance (Z.of_nat n) self
  = Run self
        (map Call (map size (seq 0 n)) ++ [Warn (failure_message (Z.of_nat n))])
        (inr (None_, size n)).
Proof.
  intros Hn Hnone.
  rewrite (exhausted_run computation_func tolerance (fun _ => None_) n self Hn Hnone).
  - f_equal. rewrite <- (logged_nil self) at 2. f_equal.
    clear. generalize 0%nat. induction n as [|n IH]; intros k; [reflexivity|].
    cbn [seq flat_map]. rewrite IH.
    unfold entry. destruct k; cbn [previous]; now rewrite is_None_None.
  - intros i _. left. destruct i; cbn [previous]; apply is_None_None.
Qed.

Lemma none_is_never_compared_witness :
  adaptive_convergence Examples.always_none Examples.tol_1e_12 3 (__init__ 1000)
  = Run (__init__ 1000)
        [Call 10; Call 20; Call 40; Warn "Failed to converge within 3 iterations"]
        (inr (Ref.VNone, 80)).
Proof.
  apply (none_is_never_compared Ref.runtime Examples.always_none Examples.tol_1e_12 3
           (__init__ 1000)).
  - lia.
  - intros i Hi. reflexivity.
Defined.

(** ** [truncate_space] on one-dimensional arrays *)

Lemma truncate_space_1d (xs : list float) (cutoff : option Z)
      (self : InfiniteDimensionalSystem) :
  truncate_space (Ref.VArray (Ref.Float64 xs)) cutoff self
  = Run self []
        (inr (Ref.VArray
                (Ref.Float64
                   (firstn (Ref.slice_stop (List.length xs)
                              match cutoff with
                              | None => dimension_cutoff self
                              | Some c => c
                              end) xs)))).
Proof. reflexivity. Qed.

(** X8.  On a one-dimensional array and with a cutoff [c >= 0] (the
    argument, or [self.dimension_cutoff] when the argument is [None]),
    [truncate_space] returns the first [min(len, c)] entries, in their
    order; it changes nothing in the instance and raises nothing. *)
Theorem truncate_space_keeps_prefix
        (xs : list float) (cutoff : option Z) (self : InfiniteDimensionalSystem) :
  let c := match cutoff with
           | None => dimension_cutoff self
           | Some c => c
           end in
  0 <= c ->
  exists kept dropped,
    xs = kept ++ dropped /\
    List.length kept = Nat.min (List.length xs) (Z.to_nat c) /\
    truncate_space (Ref.VArray (Ref.Float64 xs)) cutoff self
    = Run self [] (inr (Ref.VArray (Ref.Float64 kept))).
Proof.
  intros c Hc. rewrite truncate_space_1d. fold c.
  unfold Ref.slice_stop. destruct (c <? 0) eqn:Hneg; [lia|].
  exists (firstn (Nat.min (List.length xs) (Z.to_nat c)) xs),
         (skipn (Nat.min (List.length xs) (Z.to_nat c)) xs).
  repeat apply conj.
  - symmetry. apply firstn_skipn.
  - rewrite length_firstn. lia.
  - reflexivity.
Qed.

Lemma truncate_space_keeps_prefix_witness :
  exists kept dropped,
    [F.zero; F.inf; F.zero] = kept ++ dropped /\
    List.length kept = Nat.min 3 (Z.to_nat 2) /\
    truncate_space (Ref.VArray (Ref.Float64 [F.zero; F.inf; F.zero])) None (__init__ 2)
    = Run (__init__ 2) [] (inr (Ref.VArray (Ref.Float64 kept))).
Proof.
  apply (truncate_space_keeps_prefix [F.zero; F.inf; F.zero] None (__init__ 2)).
  simpl. lia.
Defined.

(** X9.  Truncating what has been truncated: with cutoffs [c1, c2 >= 0],
    truncating to [c1] and then to [c2] gives what truncating to
    [min(c1, c2)] gives; so truncating twice to one cutoff changes nothing
    more. *)
Theorem truncate_space_twice
        (xs : list float) (c1 c2 : Z) (self : InfiniteDimensionalSystem) :
  0 <= c1 -> 0 <= c2 ->
  exists ys,
    outcome (truncate_space (Ref.VArray (Ref.Float64 xs)) (Some c1) self) = inr ys /\
    truncate_space ys (Some c2) self
    = truncate_space (Ref.VArray (Ref.Float64 xs)) (Some (Z.min c1 c2)) self /\
    truncate_space ys (Some c1) self = Run self [] (inr ys).
Proof.
  intros H1 H2.
  exists (Ref.VArray (Ref.Float64 (firstn (Ref.slice_stop (List.length xs) c1) xs))).
  rewrite !truncate_space_1d. cbn [outcome].
  split; [reflexivity|].
  unfold Ref.slice_stop.
  destruct (c1 <? 0) eqn:E1; [lia|]. destruct (c2 <? 0) eqn:E2; [lia|].
  destruct (Z.min c1 c2 <? 0) eqn:E3; [lia|].
  rewrite !length_firstn, !firstn_firstn, Z2Nat.inj_min. split.
  - do 5 f_equal. lia.
  - do 5 f_equal. lia.
Qed.

Lemma truncate_space_twice_witness :
  exists ys,
    outcome (truncate_space (Ref.VArray (Ref.Float64 [F.zero; F.inf; F.zero]))
                            (Some 2) (__init__ 1000)) = inr ys /\
    truncate_space ys (Some 1) (__init__ 1000)
    = truncate_space (Ref.VArray (Ref.Float64 [F.zero; F.inf; F.zero]))
                     (Some (Z.min 2 1)) (__init__ 1000) /\
    truncate_space ys (Some 2) (__init__ 1000) = Run (__init__ 1000) [] (inr ys).
Proof.
  apply (truncate_space_twice [F.zero; F.inf; F.zero] 2 1 (__init__ 1000)); lia.
Defined.

(** X10.  A negative cutoff is not refused: as in any Python slice, [-k]
    counts from the end, and [truncate_space] drops the last [k] entries
    (all of them when the array has no more than [k]). *)
Theorem truncate_space_negative_cutoff
        (xs : list float) (cutoff : option Z) (self : InfiniteDimensionalSystem) :
  let c := match cutoff with
           | None => dimension_cutoff self
           | Some c => c
           end in
  c < 0 ->
  exists kept dropped,
    xs = kept ++ dropped /\
    List.length dropped = Nat.min (List.length xs) (Z.to_nat (- c)) /\
    truncate_space (Ref.VArray (Ref.Float64 xs)) cutoff self
    = Run self [] (inr (Ref.VArray (Ref.Float64 kept))).
Proof.
  intros c Hc. rewrite truncate_space_1d. fold c.
  unfold Ref.slice_stop. destruct (c <? 0) eqn:Hneg; [|lia].
  exists (firstn (Z.to_nat (Z.of_nat (List.length xs) + c)) xs),
         (skipn (Z.to_nat (Z.of_nat (List.length xs) + c)) xs).
  repeat apply conj.
  - symmetry. apply firstn_skipn.
  - rewrite length_skipn. lia.
  - reflexivity.
Qed.

Lemma truncate_space_negative_cutoff_witness :
  exists kept dropped,
    [F.zero; F.inf; F.zero] = kept ++ dropped /\
    List.length dropped = Nat.min 3 (Z.to_nat (- (-1))) /\
    truncate_space (Ref.VArray (Ref.Float64 [F.zero; F.inf; F.zero])) (Some (-1))
                   (__init__ 1000)
    = Run (__init__ 1000) [] (inr (Ref.VArray (Ref.Float64 kept))).
Proof.
  apply (truncate_space_negative_cutoff [F.zero; F.inf; F.zero] (Some (-1))
           (__init__ 1000)).
  simpl. lia.
Defined.

(** ** [wilson_loop] *)

Section Wilson.
Context {R : PyRuntime} {L : LinearAlgebra}.
Variable self : GaugeTheoryInfiniteDimensional.
Variable gauge_field : array.

Lemma wilson_steps_directions (path path' : list (Z * Z)) :
  map snd path = map snd path' ->
  forall p, wilson_steps self gauge_field path p = wilson_steps self gauge_field path' p.
Proof.
  revert path'. induction path as [|[point direction] path IH];
    intros [|[point' direction'] path'] H p; try discriminate H; [reflexivity|].
  cbn [map snd] in H. injection H as <- H. cbn [wilson_steps].
  destruct (direction <? spacetime_dim self); [|now apply IH].
  destruct (getitem gauge_field direction) as [e|a]; [reflexivity|].
  destruct (linalg_expm a) as [e|u]; [reflexivity|].
  destruct (matmul p u) as [e|q]; [reflexivity|]. now apply IH.
Qed.

Lemma wilson_steps_filter (path : list (Z * Z)) :
  forall p,
    wilson_steps self gauge_field path p
    = wilson_steps self gauge_field
        (filter (fun step => snd step <? spacetime_dim self) path) p.
Proof.
  induction path as [|[point direction] path IH]; intros p; [reflexivity|].
  cbn [wilson_steps filter snd].
  destruct (direction <? spacetime_dim self) eqn:Hd; [|apply IH].
  cbn [wilson_steps]. rewrite Hd.
  destruct (getitem gauge_field direction) as [e|a]; [reflexivity|].
  destruct (linalg_expm a) as [e|u]; [reflexivity|].
  destruct (matmul p u) as [e|q]; [reflexivity|]. apply IH.
Qed.

End Wilson.

(** X11.  [wilson_loop] never looks at the spacetime points of the path:
    two paths with the same directions, in the same order, give the same
    value (or the same exception), whatever their points are. *)
Theorem wilson_loop_ignores_points
        (R : PyRuntime) (L : LinearAlgebra) (self : GaugeTheoryInfiniteDimensional)
        (gauge_field : array) (path path' : list (Z * Z)) :
  map snd path = map snd path' ->
  wilson_loop self gauge_field path = wilson_loop self gauge_field path'.
Proof.
  intros H. unfold wilson_loop.
  destruct (np_eye_complex (gauge_group_dim self)) as [e|p]; [reflexivity|].
  now rewrite (wilson_steps_directions self gauge_field path path' H).
Qed.

Lemma wilson_loop_ignores_points_witness :
  wilson_loop (R := Ref.runtime) (L := Symbolic.algebra) (gauge__init__ 3 None)
              (Symbolic.Var "A") [(0, 1); (7, 2)]
  = wilson_loop (R := Ref.runtime) (L := Symbolic.algebra) (gauge__init__ 3 None)
                (Symbolic.Var "A") [(5, 1); (-4, 2)].
Proof.
  apply (wilson_loop_ignores_points Ref.runtime Symbolic.algebra (gauge__init__ 3 None)
           (Symbolic.Var "A") [(0, 1); (7, 2)] [(5, 1); (-4, 2)]).
  reflexivity.
Defined.

(** X12.  A step whose direction is not below [spacetime_dim] is passed over
    without a word: the loop has the value of the path from which these steps
    are removed, and a path with no other step has the trace of the identity,
    the gauge field being never read. *)
Theorem wilson_loop_skips_directions
        (R : PyRuntime) (L : LinearAlgebra) (self : GaugeTheoryInfiniteDimensional)
        (gauge_field : array) (path : list (Z * Z)) :
  wilson_loop self gauge_field path
  = wilson_loop self gauge_field
      (filter (fun step => snd step <? spacetime_dim self) path) /\
  (Forall (fun step => spacetime_dim self <= snd step) path ->
   wilson_loop self gauge_field path
   = match np_eye_complex (gauge_group_dim self) with
     | inl e => inl e
     | inr identity => np_trace identity
     end).
Proof.
  split.
  - unfold wilson_loop.
    destruct (np_eye_complex (gauge_group_dim self)) as [e|p]; [reflexivity|].
    now rewrite (wilson_steps_filter self gauge_field path).
  - intros Hall. unfold wilson_loop.
    destruct (np_eye_complex (gauge_group_dim self)) as [e|p]; [reflexivity|].
    rewrite (wilson_steps_filter self gauge_field path).
    replace (filter _ path) with (@nil (Z * Z)); [reflexivity|].
    symmetry. induction Hall as [|[point direction] path Hd Hall IH]; [reflexivity|].
    cbn [filter snd] in *. destruct (direction <? spacetime_dim self) eqn:E; [lia|].
    exact IH.
Qed.

(** ** [_compute_field_strength] *)

Lemma SFopp_involutive (x : float) : SFopp (SFopp x) = x.
Proof. destruct x as [s|s| |s m e]; simpl; now rewrite ?negb_involutive. Qed.

Lemma binary_round_aux_opp (s : bool) (m e : Z) (l : location) :
  binary_round_aux F.prec F.emax (negb s) m e l
  = SFopp (binary_round_aux F.prec F.emax s m e l).
Proof.
  unfold binary_round_aux.
  destruct (shr_fexp F.prec F.emax m e l) as [mrs' e'].
  destruct (shr_fexp F.prec F.emax _ e' loc_Exact) as [mrs'' e''].
  destruct (shr_m mrs'') as [|p|p]; [reflexivity| |reflexivity].
  destruct (e'' <=? F.emax - F.prec); reflexivity.
Qed.

Lemma binary_round_opp (s : bool) (m : positive) (e : Z) :
  binary_round F.prec F.emax (negb s) m e = SFopp (binary_round F.prec F.emax s m e).
Proof.
  unfold binary_round. destruct (shl_align m e _) as [mz ez].
  apply binary_round_aux_opp.
Qed.

Lemma binary_normalize_opp (m e : Z) :
  Dense.opposite (binary_normalize F.prec F.emax m e false)
                 (binary_normalize F.prec F.emax (- m) e false).
Proof.
  destruct m as [|p|p]; cbn [binary_normalize Z.opp].
  - right. split; reflexivity.
  - left. change true with (negb false). rewrite binary_round_opp.
    now rewrite SFopp_involutive.
  - left. change true with (negb false). now rewrite binary_round_opp.
Qed.

(** The two differences of two floats are opposite. *)
Lemma sub_opposite (x y : float) : Dense.opposite (F.sub x y) (F.sub y x).
Proof.
  destruct x as [sx|sx| |sx mx ex]; destruct y as [sy|sy| |sy my ey];
    try (destruct sx; destruct sy; cbn;
         solve [left; reflexivity | right; split; reflexivity]);
    try (destruct sx; cbn; left; reflexivity);
    try (destruct sy; cbn; left; reflexivity);
    try (cbn; left; reflexivity).
  unfold F.sub, SFsub. rewrite (Z.min_comm ey ex).
  set (a := cond_Zopp sx _). set (b := cond_Zopp sy _).
  replace (b - a) with (- (a - b)) by lia.
  apply binary_normalize_opp.
Qed.

Lemma broadcast_dim_comm (m n : nat) :
  Dense.broadcast_dim m n = Dense.broadcast_dim n m.
Proof.
  unfold Dense.broadcast_dim.
  destruct (Nat.eqb m n) eqn:E.
  - apply Nat.eqb_eq in E. subst. now rewrite Nat.eqb_refl.
  - rewrite (Nat.eqb_sym n m), E.
    destruct (Nat.eqb m 1) eqn:E1; destruct (Nat.eqb n 1) eqn:E2; try reflexivity.
    apply Nat.eqb_eq in E1, E2. subst. discriminate E.
Qed.

(** The commutators of two components, taken in the two orders, have one
    shape and opposite entries. *)
Lemma commutator_opposite (gauge_field : Dense.array3) (mu nu : nat)
      (c c' : Dense.array2) :
  Dense.commutator gauge_field mu nu = inr c ->
  Dense.commutator gauge_field nu mu = inr c' ->
  Dense.rows c = Dense.rows c' /\ Dense.cols c = Dense.cols c' /\
  forall i j, Dense.opposite (Dense.at2 c i j) (Dense.at2 c' i j).
Proof.
  unfold Dense.commutator.
  destruct (Dense.item3 gauge_field mu) as [e|a]; [discriminate|].
  destruct (Dense.item3 gauge_field nu) as [e|b]; [discriminate|].
  destruct (Dense.matmul2 a b) as [e|p]; [discriminate|].
  destruct (Dense.matmul2 b a) as [e|q]; [discriminate|].
  unfold Dense.sub2.
  rewrite (broadcast_dim_comm (Dense.rows q)), (broadcast_dim_comm (Dense.cols q)).
  destruct (Dense.broadcast_dim (Dense.rows p) (Dense.rows q)) as [r|]; [|discriminate].
  destruct (Dense.broadcast_dim (Dense.cols p) (Dense.cols q)) as [k|]; [|discriminate].
  intros H H'. injection H as <-. injection H' as <-. cbn.
  split; [reflexivity|]. split; [reflexivity|]. intros i j. apply sub_opposite.
Qed.

Lemma existsb_seq (n d : nat) : existsb (Nat.eqb n) (seq 0 d) = Nat.ltb n d.
Proof.
  destruct (Nat.ltb n d) eqn:E.
  - apply existsb_exists. exists n. apply Nat.ltb_lt in E.
    split; [apply in_seq; lia | apply Nat.eqb_refl].
  - destruct (existsb (Nat.eqb n) (seq 0 d)) eqn:E'; [|reflexivity].
    apply existsb_exists in E'. destruct E' as (k & Hk & Hnk).
    apply in_seq in Hk. apply Nat.eqb_eq in Hnk. apply Nat.ltb_ge in E. lia.
Qed.

(** What the loop over [nu] leaves in the array: the shape, the commutator
    in the blocks it has passed, the rest as it was; each commutator was
    computed without an exception. *)
Lemma for_nu_spec (gauge_field : Dense.array3) (mu : nat) (nus : list nat) :
  forall fs fs',
    Dense.for_nu gauge_field mu nus fs = inr fs' ->
    Dense.shape4 fs' = Dense.shape4 fs /\
    (forall n, In n nus -> n <> mu ->
               exists c, Dense.commutator gauge_field mu n = inr c) /\
    forall m n i j,
      Dense.at4 fs' m n i j
      = if Nat.eqb m mu && existsb (Nat.eqb n) nus && negb (Nat.eqb n mu)
        then Dense.written gauge_field mu n i j
        else Dense.at4 fs m n i j.
Proof.
  induction nus as [|nu nus IH]; intros fs fs' H; cbn [Dense.for_nu] in H.
  - injection H as <-. split; [reflexivity|]. split; [intros n []|].
    intros m n i j. cbn [existsb]. now rewrite andb_false_r.
  - destruct (Nat.eqb mu nu) eqn:E.
    + apply Nat.eqb_eq in E. subst nu.
      destruct (IH fs fs' H) as (Hshape & Hok & Hat).
      split; [exact Hshape|]. split.
      * intros n [Hn|Hn] Hne; [congruence | now apply Hok].
      * intros m n i j. rewrite Hat. cbn [existsb].
        destruct (Nat.eqb n mu) eqn:En; [now rewrite !andb_false_r | reflexivity].
    + destruct (Dense.commutator gauge_field mu nu) as [e|c] eqn:Hc; [discriminate|].
      destruct (Dense.setitem4 fs mu nu c) as [e|fs1] eqn:Hset; [discriminate|].
      destruct (IH fs1 fs' H) as (Hshape & Hok & Hat).
      unfold Dense.setitem4 in Hset.
      destruct (Dense.shape4 fs) as [[[d0 d1] d2] d3] eqn:Hfs.
      destruct (Nat.ltb mu d0 && Nat.ltb nu d1); [|discriminate].
      destruct ((Nat.eqb (Dense.rows c) d2 || Nat.eqb (Dense.rows c) 1) &&
                (Nat.eqb (Dense.cols c) d3 || Nat.eqb (Dense.cols c) 1));
        [|discriminate].
      injection Hset as <-. cbn [Dense.shape4 Dense.at4] in *.
      split; [now rewrite Hshape|]. split.
      * intros n [Hn|Hn] Hne; [subst n; now exists c | now apply Hok].
      * intros m n i j. rewrite Hat. cbn [existsb].
        destruct (Nat.eqb m mu) eqn:Em; cbn [andb]; [|reflexivity].
        destruct (Nat.eqb n mu) eqn:En; cbn [negb].
        { rewrite !andb_false_r. apply Nat.eqb_eq in En. subst n.
          rewrite (Nat.eqb_sym mu nu) in *. now rewrite E. }
        rewrite !andb_true_r.
        destruct (existsb (Nat.eqb n) nus); [now rewrite orb_true_r|].
        rewrite orb_false_r.
        destruct (Nat.eqb n nu) eqn:Enu; [|reflexivity].
        apply Nat.eqb_eq in Enu. subst n. unfold Dense.written. now rewrite Hc.
Qed.

(** What the loop over [mu] leaves in the array. *)
Lemma for_mu_spec (gauge_field : Dense.array3) (d : nat) (mus : list nat) :
  forall fs fs',
    Dense.for_mu gauge_field d mus fs = inr fs' ->
    Dense.shape4 fs' = Dense.shape4 fs /\
    (forall m n, In m mus -> (n < d)%nat -> n <> m ->
                 exists c, Dense.commutator gauge_field m n = inr c) /\
    forall m n i j,
      Dense.at4 fs' m n i j
      = if existsb (Nat.eqb m) mus && Nat.ltb n d && negb (Nat.eqb n m)
        then Dense.written gauge_field m n i j
        else Dense.at4 fs m n i j.
Proof.
  induction mus as [|mu mus IH]; intros fs fs' H; cbn [Dense.for_mu] in H.
  - injection H as <-. split; [reflexivity|]. split; [intros m n []|].
    intros m n i j. reflexivity.
  - destruct (Dense.for_nu gauge_field mu (seq 0 d) fs) as [e|fs1] eqn:Hnu; [discriminate|].
    destruct (for_nu_spec gauge_field mu (seq 0 d) fs fs1 Hnu) as (Hshape1 & Hok1 & Hat1).
    destruct (IH fs1 fs' H) as (Hshape & Hok & Hat).
    split; [now rewrite Hshape|]. split.
    + intros m n [Hm|Hm] Hn Hne; [subst m|now apply Hok].
      apply Hok1; [apply in_seq; lia | exact Hne].
    + intros m n i j. rewrite Hat, Hat1, existsb_seq. cbn [existsb].
      destruct (existsb (Nat.eqb m) mus); cbn [andb orb].
      * rewrite orb_true_r. cbn [andb].
        destruct (Nat.ltb n d && negb (Nat.eqb n m)) eqn:Econd; [reflexivity|].
        destruct (Nat.eqb m mu) eqn:Em; cbn [andb]; [|reflexivity].
        apply Nat.eqb_eq in Em. subst m. now rewrite Econd.
      * rewrite orb_false_r.
        destruct (Nat.eqb m mu) eqn:Em; cbn [andb]; [|reflexivity].
        apply Nat.eqb_eq in Em. subst m. reflexivity.
Qed.

Lemma field_strength_entries (d g : Z) (gauge_field : Dense.array3) (fs : Dense.array4) :
  Dense._compute_field_strength d g gauge_field = inr fs ->
  Dense.shape4 fs = (Z.to_nat d, Z.to_nat d, Z.to_nat g, Z.to_nat g) /\
  (forall m n, (m < Z.to_nat d)%nat -> (n < Z.to_nat d)%nat -> n <> m ->
               exists c, Dense.commutator gauge_field m n = inr c) /\
  forall m n i j,
    Dense.at4 fs m n i j
    = if Nat.ltb m (Z.to_nat d) && Nat.ltb n (Z.to_nat d) && negb (Nat.eqb n m)
      then Dense.written gauge_field m n i j
      else F.zero.
Proof.
  unfold Dense._compute_field_strength, Dense.zeros4.
  destruct ((d <? 0) || (d <? 0) || (g <? 0) || (g <? 0)); [discriminate|].
  intros H. apply for_mu_spec in H. destruct H as (Hshape & Hok & Hat).
  cbn [Dense.shape4 Dense.at4] in *. split; [exact Hshape|]. split.
  - intros m n Hm Hn Hne. apply Hok; [apply in_seq; lia | exact Hn | exact Hne].
  - intros m n i j. now rewrite Hat, existsb_seq.
Qed.

(** X13.  The field strength that [_compute_field_strength] returns has the
    shape (d, d, g, g) of the two dimensions of the instance, its diagonal
    blocks are zero, and it is antisymmetric in its first two indices: the
    entries of the blocks [mu, nu] and [nu, mu] are the negation of one
    another (both [0.0] where the two products are equal). *)
Theorem field_strength_antisymmetric
        (d g : Z) (gauge_field : Dense.array3) (fs : Dense.array4) :
  Dense._compute_field_strength d g gauge_field = inr fs ->
  Dense.shape4 fs = (Z.to_nat d, Z.to_nat d, Z.to_nat g, Z.to_nat g) /\
  forall mu nu i j,
    (mu < Z.to_nat d)%nat -> (nu < Z.to_nat d)%nat ->
    Dense.opposite (Dense.at4 fs mu nu i j) (Dense.at4 fs nu mu i j) /\
    Dense.at4 fs mu mu i j = F.zero.
Proof.
  intros H. destruct (field_strength_entries d g gauge_field fs H) as (Hshape & Hok & Hat).
  split; [exact Hshape|]. intros mu nu i j Hmu Hnu. split.
  - rewrite !Hat.
    destruct (Nat.ltb mu (Z.to_nat d)) eqn:E1; [|apply Nat.ltb_ge in E1; lia].
    destruct (Nat.ltb nu (Z.to_nat d)) eqn:E2; [|apply Nat.ltb_ge in E2; lia].
    cbn [andb]. rewrite (Nat.eqb_sym mu nu).
    destruct (Nat.eqb nu mu) eqn:E; cbn [negb].
    + right. split; reflexivity.
    + apply Nat.eqb_neq in E.
      destruct (Hok mu nu Hmu Hnu E) as (c & Hc).
      destruct (Hok nu mu Hnu Hmu (not_eq_sym E)) as (c' & Hc').
      destruct (commutator_opposite gauge_field mu nu c c' Hc Hc') as (Hr & Hk & Hopp).
      unfold Dense.written. rewrite Hc, Hc', <- Hr, <- Hk. apply Hopp.
  - rewrite Hat, Nat.eqb_refl. now rewrite andb_false_r.
Qed.

Lemma field_strength_antisymmetric_witness :
  exists fs,
    Dense._compute_field_strength 2 2 Dense.raising_lowering = inr fs /\
    Dense.shape4 fs = (2, 2, 2, 2)%nat /\
    forall mu nu i j,
      (mu < Z.to_nat 2)%nat -> (nu < Z.to_nat 2)%nat ->
      Dense.opposite (Dense.at4 fs mu nu i j) (Dense.at4 fs nu mu i j) /\
      Dense.at4 fs mu mu i j = F.zero.
Proof.
  eexists. split; [reflexivity|].
  apply (field_strength_antisymmetric 2 2 Dense.raising_lowering).
  reflexivity.
Defined.

(** The commutator of the two matrices of [raising_lowering] is
    [[1, 0], [0, -1]], and it is what the block [0, 1] holds. *)
Lemma raising_lowering_strength :
  match Dense._compute_field_strength 2 2 Dense.raising_lowering with
  | inr fs =>
      map (fun ij => Dense.at4 fs 0 1 (fst ij) (snd ij))
          [(0, 0); (0, 1); (1, 0); (1, 1)]%nat
      = [Dense.one; F.zero; F.zero; SFopp Dense.one] /\
      map (fun ij => Dense.at4 fs 1 0 (fst ij) (snd ij))
          [(0, 0); (0, 1); (1, 0); (1, 1)]%nat
      = [SFopp Dense.one; F.zero; F.zero; Dense.one]
  | inl _ => False
  end.
Proof. vm_compute. split; reflexivity. Qed.

(** X15.  With [spacetime_dim <= 1] there is no pair of distinct directions:
    the gauge field is never read, whatever its shape, and the result is the
    array of zeros (or the ValueError of [np.zeros] for a negative
    dimension). *)
Theorem field_strength_unread_below_two
        (d g : Z) (gauge_field : Dense.array3) :
  d <= 1 ->
  Dense._compute_field_strength d g gauge_field = Dense.zeros4 d d g g.
Proof.
  intros Hd. unfold Dense._compute_field_strength.
  destruct (Dense.zeros4 d d g g) as [e|fs]; [reflexivity|].
  destruct (Z.to_nat d) as [|[|n]] eqn:E; [reflexivity | reflexivity | lia].
Qed.

Lemma field_strength_unread_below_two_witness :
  Dense._compute_field_strength 1 3 (Dense.field 0 7 (fun _ _ _ => F.inf))
  = Dense.zeros4 1 1 3 3.
Proof.
  apply (field_strength_unread_below_two 1 3 (Dense.field 0 7 (fun _ _ _ => F.inf))).
  lia.
Defined.

(** X16.  With two directions or more the field is read, and a field that
    does not fit is refused at the first pair of directions: with fewer than
    two components the index raises IndexError; with two or more components
    that are not square matrices the product raises ValueError. *)
Theorem field_strength_refuses_misshapen
        (d g : Z) (gauge_field : Dense.array3) :
  2 <= d -> 0 <= g ->
  ((Dense.len3 gauge_field < 2)%nat ->
   Dense._compute_field_strength d g gauge_field = inl IndexError) /\
  ((2 <= Dense.len3 gauge_field)%nat ->
   Dense.rows3 gauge_field <> Dense.cols3 gauge_field ->
   Dense._compute_field_strength d g gauge_field = inl ValueError).
Proof.
  intros Hd Hg. unfold Dense._compute_field_strength, Dense.zeros4.
  replace (d <? 0) with false by lia. replace (g <? 0) with false by lia.
  cbn [orb]. destruct (Z.to_nat d) as [|[|n]] eqn:E; [lia | lia |].
  cbn [seq Dense.for_mu Dense.for_nu Nat.eqb]. unfold Dense.commutator, Dense.item3.
  split.
  - intros Hlen. destruct (Dense.len3 gauge_field) as [|[|k]]; [reflexivity | reflexivity | lia].
  - intros Hlen Hsq.
    destruct (Dense.len3 gauge_field) as [|[|k]]; [lia | lia |].
    cbn [Nat.ltb Nat.leb]. unfold Dense.matmul2. cbn [Dense.rows Dense.cols].
    destruct (Nat.eqb (Dense.cols3 gauge_field) (Dense.rows3 gauge_field)) eqn:Esq;
      [|reflexivity].
    apply Nat.eqb_eq in Esq. congruence.
Qed.

Lemma field_strength_refuses_misshapen_witness :
  ((Dense.len3 (Dense.field 1 3 (fun _ _ _ => F.zero)) < 2)%nat ->
   Dense._compute_field_strength 4 3 (Dense.field 1 3 (fun _ _ _ => F.zero))
   = inl IndexError) /\
  ((2 <= Dense.len3 (Dense.field 1 3 (fun _ _ _ => F.zero)))%nat ->
   Dense.rows3 (Dense.field 1 3 (fun _ _ _ => F.zero))
   <> Dense.cols3 (Dense.field 1 3 (fun _ _ _ => F.zero)) ->
   Dense._compute_field_strength 4 3 (Dense.field 1 3 (fun _ _ _ => F.zero))
   = inl ValueError).
Proof.
  apply (field_strength_refuses_misshapen 4 3 (Dense.field 1 3 (fun _ _ _ => F.zero)));
    lia.
Defined.

Lemma commutator_square (gauge_field : Dense.array3) (mu nu : nat) :
  (mu < Dense.len3 gauge_field)%nat -> (nu < Dense.len3 gauge_field)%nat ->
  Dense.rows3 gauge_field = Dense.cols3 gauge_field ->
  exists c, Dense.commutator gauge_field mu nu = inr c /\
            Dense.rows c = Dense.rows3 gauge_field /\
            Dense.cols c = Dense.rows3 gauge_field.
Proof.
  intros Hmu Hnu Hsq. unfold Dense.commutator, Dense.item3.
  apply Nat.ltb_lt in Hmu, Hnu. rewrite Hmu, Hnu.
  unfold Dense.matmul2. cbn [Dense.rows Dense.cols].
  rewrite <- Hsq, Nat.eqb_refl. unfold Dense.sub2, Dense.broadcast_dim.
  cbn [Dense.rows Dense.cols]. rewrite Nat.eqb_refl.
  eexists. split; [reflexivity|]. split; reflexivity.
Qed.

Lemma for_nu_total (gauge_field : Dense.array3) (d g mu : nat) (nus : list nat) :
  forall fs,
    Dense.shape4 fs = (d, d, g, g) ->
    (mu < d)%nat -> Forall (fun nu => (nu < d)%nat) nus ->
    (d <= Dense.len3 gauge_field)%nat ->
    Dense.rows3 gauge_field = Dense.cols3 gauge_field ->
    Dense.rows3 gauge_field = g \/ Dense.rows3 gauge_field = 1%nat ->
    exists fs', Dense.for_nu gauge_field mu nus fs = inr fs' /\
                Dense.shape4 fs' = (d, d, g, g).
Proof.
  induction nus as [|nu nus IH]; intros fs Hshape Hmu Hnus Hlen Hsq Hg; cbn [Dense.for_nu].
  - now exists fs.
  - inversion Hnus as [|? ? Hnu Hrest]; subst.
    destruct (Nat.eqb mu nu); [now apply IH|].
    destruct (commutator_square gauge_field mu nu) as (c & Hc & Hr & Hk);
      try assumption; try lia.
    rewrite Hc. unfold Dense.setitem4. rewrite Hshape.
    apply Nat.ltb_lt in Hmu, Hnu. rewrite Hmu, Hnu, Hr, Hk. cbn [andb].
    assert (Hfit : Nat.eqb (Dense.rows3 gauge_field) g
                   || Nat.eqb (Dense.rows3 gauge_field) 1 = true).
    { destruct Hg as [-> | ->]; rewrite Nat.eqb_refl; [reflexivity | apply orb_true_r]. }
    rewrite Hfit. cbn [andb]. apply IH; try assumption.
    + reflexivity.
    + now apply Nat.ltb_lt.
Qed.

Lemma for_mu_total (gauge_field : Dense.array3) (d g : nat) (mus : list nat) :
  forall fs,
    Dense.shape4 fs = (d, d, g, g) ->
    Forall (fun mu => (mu < d)%nat) mus ->
    (d <= Dense.len3 gauge_field)%nat ->
    Dense.rows3 gauge_field = Dense.cols3 gauge_field ->
    Dense.rows3 gauge_field = g \/ Dense.rows3 gauge_field = 1%nat ->
    exists fs', Dense.for_mu gauge_field d mus fs = inr fs'.
Proof.
  induction mus as [|mu mus IH]; intros fs Hshape Hmus Hlen Hsq Hg; cbn [Dense.for_mu].
  - now exists fs.
  - inversion Hmus as [|? ? Hmu Hrest]; subst.
    destruct (for_nu_total gauge_field d g mu (seq 0 d) fs) as (fs1 & Hfs1 & Hshape1);
      try assumption.
    { apply Forall_forall. intros nu Hnu. apply in_seq in Hnu. lia. }
    rewrite Hfs1. now apply IH.
Qed.

(** X14.  The field strength is computed, with no exception, for every
    field that fits the instance: at least [spacetime_dim] components, each
    of them a [g] by [g] matrix for [g = gauge_group_dim] (or a 1 by 1
    matrix, which NumPy broadcasts to the block). *)
Theorem field_strength_defined (d g : Z) (gauge_field : Dense.array3) :
  0 <= d -> 0 <= g ->
  (Z.to_nat d <= Dense.len3 gauge_field)%nat ->
  Dense.rows3 gauge_field = Dense.cols3 gauge_field ->
  Dense.rows3 gauge_field = Z.to_nat g \/ Dense.rows3 gauge_field = 1%nat ->
  exists fs, Dense._compute_field_strength d g gauge_field = inr fs.
Proof.
  intros Hd Hg Hlen Hsq Hfit. unfold Dense._compute_field_strength, Dense.zeros4.
  replace (d <? 0) with false by lia. replace (g <? 0) with false by lia.
  cbn [orb]. apply (for_mu_total gauge_field (Z.to_nat d) (Z.to_nat g)); try assumption.
  - reflexivity.
  - apply Forall_forall. intros mu Hmu. apply in_seq in Hmu. lia.
Qed.

Lemma field_strength_defined_witness :
  exists fs, Dense._compute_field_strength 2 2 Dense.raising_lowering = inr fs.
Proof.
  apply (field_strength_defined 2 2 Dense.raising_lowering);
    [lia | lia | simpl; lia | reflexivity | left; reflexivity].
Defined.

(** ** [find_fixed_points] *)

Section FixedPoints.
Context {R : PyRuntime} {S : Solver R}.
Variable self : StatisticalMechanicsInfiniteDimensional.
Variable flow_equations : value -> exn + value.

Lemma attempt_verified (initial_guess fp : value) :
  attempt flow_equations initial_guess = inr (Some fp) ->
  verified flow_equations fp.
Proof.
  unfold attempt, verified. intros H.
  destruct (fsolve flow_equations initial_guess) as [e|fp'] eqn:Hs; [discriminate|].
  destruct (flow_equations fp') as [e|residual] eqn:Hf; [discriminate|].
  destruct (np_linalg_norm residual) as [e|n] eqn:Hn; [discriminate|].
  destruct (py_lt_float n tol_1e_10) as [e|[|]] eqn:Hlt; try discriminate.
  injection H as <-. exists initial_guess, residual, n. auto.
Qed.

(** The loop appends to the list what each iteration keeps, in the order of
    the iterations, and draws one starting point for each iteration. *)
Lemma guesses_spec (n : nat) :
  forall fixed_points state fixed_points' state',
    guesses self flow_equations n fixed_points state = inr (fixed_points', state') ->
    exists m initial_guesses,
      draws m state initial_guesses state' /\
      List.length initial_guesses = n /\
      (n = 0%nat \/ py_len (couplings self) = inr m) /\
      fixed_points' = fixed_points ++ flat_map (kept flow_equations) initial_guesses.
Proof.
  induction n as [|n IH]; intros fps state fps' state' H; cbn [guesses] in H.
  - injection H as <- <-. exists 0, []. rewrite app_nil_r.
    repeat apply conj; [constructor | reflexivity | now left | reflexivity].
  - revert H. case_eq (py_len (couplings self)); [discriminate|]. intros m Hlen H.
    destruct (random_normal state m) as [e|[guess state1]] eqn:Hdraw; [discriminate|].
    match goal with
    | |- ?G =>
        assert (Hcons : forall fps1,
                   fps1 = fps ++ kept flow_equations guess ->
                   guesses self flow_equations n fps1 state1 = inr (fps', state') ->
                   G)
    end.
    { intros fps1 -> H1. destruct (IH _ _ _ _ H1) as (m0 & gs & Hd & Hl & Hm & ->).
      assert (Hd' : draws m state1 gs state').
      { destruct Hm as [->|Hm].
        - destruct gs; [|discriminate]. inversion Hd; subst. constructor.
        - rewrite Hlen in Hm. injection Hm as <-. exact Hd. }
      exists m, (guess :: gs). repeat apply conj.
      - now apply draws_cons with state1.
      - simpl. now rewrite Hl.
      - now right.
      - cbn [flat_map]. now rewrite app_assoc. }
    destruct (attempt flow_equations guess) as [e|[fp|]] eqn:Ha.
    + destruct (is_Exception e); [|discriminate].
      apply (Hcons fps); [unfold kept; now rewrite Ha, app_nil_r | exact H].
    + apply (Hcons (fps ++ [fp])); [unfold kept; now rewrite Ha | exact H].
    + apply (Hcons fps); [unfold kept; now rewrite Ha, app_nil_r | exact H].
Qed.

Lemma kept_verified (initial_guess : value) :
  Forall (verified flow_equations) (kept flow_equations initial_guess).
Proof.
  unfold kept. destruct (attempt flow_equations initial_guess) as [e|[fp|]] eqn:Ha;
    constructor; [now apply attempt_verified with initial_guess | constructor].
Qed.

Lemma kept_length (initial_guesses : list value) :
  (List.length (flat_map (kept flow_equations) initial_guesses)
   <= List.length initial_guesses)%nat.
Proof.
  induction initial_guesses as [|g gs IH]; [reflexivity|].
  cbn [flat_map]. rewrite length_app. cbn [List.length]. unfold kept at 1.
  destruct (attempt flow_equations g) as [e|[fp|]]; cbn [List.length]; lia.
Qed.

(** When the length of the couplings is defined and the starting points are
    drawn, and the body of the [try] raises exceptions of class Exception
    only at these points, every iteration is made and each adds what it
    keeps. *)
Lemma guesses_total (m : Z) (initial_guesses : list value) :
  py_len (couplings self) = inr m ->
  forall state state',
    draws m state initial_guesses state' ->
    (forall guess e, In guess initial_guesses ->
                     attempt flow_equations guess = inl e -> is_Exception e = true) ->
    forall fixed_points,
      guesses self flow_equations (List.length initial_guesses) fixed_points state
      = inr (fixed_points ++ flat_map (kept flow_equations) initial_guesses, state').
Proof.
  intros Hlen state state' Hd.
  induction Hd as [state | state guess state1 gs state2 Hdraw Hd IH];
    intros Hexc fps; cbn [guesses List.length flat_map].
  - now rewrite app_nil_r.
  - rewrite Hlen, Hdraw.
    assert (Hexc' : forall g e, In g gs -> attempt flow_equations g = inl e ->
                                is_Exception e = true).
    { intros g e Hin. apply Hexc. now right. }
    assert (Hkept : kept flow_equations guess
                    = match attempt flow_equations guess with
                      | inr (Some fp) => [fp]
                      | inr None | inl _ => []
                      end) by reflexivity.
    rewrite Hkept. clear Hkept.
    destruct (attempt flow_equations guess) as [e|[fp|]] eqn:Ha.
    + rewrite (Hexc guess e (or_introl eq_refl) Ha). now rewrite IH.
    + rewrite IH by exact Hexc'. now rewrite <- app_assoc.
    + now rewrite IH.
Qed.

End FixedPoints.





(** ** [measure_emergence_entropy] *)

Lemma roots_found_to_1024 : forallb root_found (map Z.of_nat (seq 0 1025)) = true.
Proof. vm_compute. reflexivity. Qed.

(** X19.  [measure_emergence_entropy] reshapes the state only when its
    length is a perfect square, and then with a root of the length.  For any
    other length the call raises before any linear algebra, the same
    exception whatever follows the test and whatever [partition_point] is,
    an argument that is never used; up to the length 1024 the exception is
    ValueError, and a state of square length is reshaped with the exact
    root. *)
Theorem entropy_needs_square_length
        (entropy_of : Ref.ndarray -> Z -> exn + Ref.object)
        (quantum_state : Ref.ndarray) (partition_point : Z) :
  let dim := array_length quantum_state in
  ((exists k, k * k = dim /\
              forall rest p, measure_emergence_entropy rest quantum_state p
                             = rest quantum_state k) \/
   (exists e, forall rest p, measure_emergence_entropy rest quantum_state p = inl e)) /\
  ((forall k, k * k <> dim) ->
   exists e, forall rest p, measure_emergence_entropy rest quantum_state p = inl e) /\
  (dim <= 1024 ->
   measure_emergence_entropy entropy_of quantum_state partition_point
   = if Z.sqrt dim * Z.sqrt dim =? dim
     then entropy_of quantum_state (Z.sqrt dim)
     else inl ValueError).
Proof.
  cbn zeta. unfold measure_emergence_entropy.
  set (dim := array_length quantum_state).
  assert (Hcases :
            (exists k, k * k = dim /\
                       forall (rest : Ref.ndarray -> Z -> exn + Ref.object) (p : Z),
                         match int_of_float (F.sqrt (F.round dim 0)) with
                         | inl e => inl e
                         | inr sqrt_dim =>
                             if negb (sqrt_dim * sqrt_dim =? dim) then inl ValueError
                             else rest quantum_state sqrt_dim
                         end = rest quantum_state k) \/
            (exists e, forall (rest : Ref.ndarray -> Z -> exn + Ref.object) (p : Z),
                         match int_of_float (F.sqrt (F.round dim 0)) with
                         | inl e => inl e
                         | inr sqrt_dim =>
                             if negb (sqrt_dim * sqrt_dim =? dim) then inl ValueError
                             else rest quantum_state sqrt_dim
                         end = inl e)).
  { destruct (int_of_float (F.sqrt (F.round dim 0))) as [e|k].
    - right. exists e. reflexivity.
    - destruct (k * k =? dim) eqn:E; cbn [negb].
      + left. exists k. apply Z.eqb_eq in E. split; [exact E | reflexivity].
      + right. exists ValueError. reflexivity. }
  refine (conj Hcases (conj _ _)).
  - intros Hsq. destruct Hcases as [(k & Hk & _)|He]; [now destruct (Hsq k) | exact He].
  - intros Hdim.
    assert (Hfound : root_found dim = true).
    { pose proof roots_found_to_1024 as H. rewrite forallb_forall in H. apply H.
      assert (Hnat : dim = Z.of_nat (Z.to_nat dim)).
      { subst dim. destruct quantum_state; cbn [array_length]; now rewrite Nat2Z.id. }
      rewrite Hnat. apply in_map, in_seq. lia. }
    unfold root_found in Hfound.
    destruct (int_of_float (F.sqrt (F.round dim 0))) as [e|k]; [discriminate|].
    apply Z.eqb_eq in Hfound. subst k.
    destruct (Z.sqrt dim * Z.sqrt dim =? dim); reflexivity.
Qed.
